(** * CC3064 Laboratorio 1: the file copier and the [mycall] system call

    A shallow embedding of the two C programs of the laboratory:

    - [Ejercicio2/files.c], a copier built on [open]/[read]/[write]/[close]
      with a 1024-byte buffer (module [Files]);
    - [Ejercicio3/mycall.c] and [Ejercicio3/prueba.c], a system call that
      adds ten to its argument and the user program that tries it (module
      [Mycall]).

    The operating system the copier talks to is modelled in module [Posix]:
    a name space of paths over inodes, a descriptor table, [errno], the two
    output streams, the list of system calls made so far and a script of
    faults that decides which calls fail or are cut short. *)

From Stdlib Require Import ZArith Lia.
From Stdlib.Strings Require Import Byte.
From stdpp Require Import base option list strings gmap.

(** ** The operating system *)

Module Posix.

Local Open Scope Z_scope.

(** A file: its bytes and its permission bits. *)
Record inode := Inode { i_data : list byte; i_mode : Z }.

(** An open file description: the file, the offset and the access mode. *)
Record open_file := OpenFile {
  o_ino : nat;
  o_pos : nat;
  o_rd : bool;
  o_wr : bool
}.

(** What the environment does to one system call: nothing special, fail it
    with an error number, or cut the transfer to at most [k] bytes (a short
    read or a partial write; ignored by [open] and [close]). *)
Inductive fault := NoFault | Errno (e : Z) | Short (k : positive).

(** The system calls of a run, with their results, in program order. *)
Inductive event :=
| EvOpen (path : string) (flags : Z) (ret : Z)
| EvRead (fd : Z) (count : Z) (ret : Z)
| EvWrite (fd : Z) (count : Z) (ret : Z)
| EvClose (fd : Z) (ret : Z).

(** An argument of [printf], and one call of it. *)
Inductive arg := ArgS (s : string) | ArgZ (z : Z).
Inductive out := Printf (fmt : string) (args : list arg).

Record World := mkWorld {
  w_names : gmap string nat;      (* directory entries: path to inode number *)
  w_inodes : gmap nat inode;      (* inode number to file *)
  w_umask : Z;                    (* file mode creation mask of the process *)
  w_fds : gmap nat open_file;     (* descriptor table of the process *)
  w_errno : Z;
  w_stdout : list out;
  w_stderr : list (string * Z);   (* perror: the prefix and the errno shown *)
  w_trace : list event;
  w_faults : list fault
}.

Definition set_names (x : gmap string nat) (w : World) : World :=
  mkWorld x (w_inodes w) (w_umask w) (w_fds w) (w_errno w) (w_stdout w)
          (w_stderr w) (w_trace w) (w_faults w).
Definition set_inodes (x : gmap nat inode) (w : World) : World :=
  mkWorld (w_names w) x (w_umask w) (w_fds w) (w_errno w) (w_stdout w)
          (w_stderr w) (w_trace w) (w_faults w).
Definition set_umask (x : Z) (w : World) : World :=
  mkWorld (w_names w) (w_inodes w) x (w_fds w) (w_errno w) (w_stdout w)
          (w_stderr w) (w_trace w) (w_faults w).
Definition set_fds (x : gmap nat open_file) (w : World) : World :=
  mkWorld (w_names w) (w_inodes w) (w_umask w) x (w_errno w) (w_stdout w)
          (w_stderr w) (w_trace w) (w_faults w).
Definition set_errno (x : Z) (w : World) : World :=
  mkWorld (w_names w) (w_inodes w) (w_umask w) (w_fds w) x (w_stdout w)
          (w_stderr w) (w_trace w) (w_faults w).
Definition set_stdout (x : list out) (w : World) : World :=
  mkWorld (w_names w) (w_inodes w) (w_umask w) (w_fds w) (w_errno w) x
          (w_stderr w) (w_trace w) (w_faults w).
Definition set_stderr (x : list (string * Z)) (w : World) : World :=
  mkWorld (w_names w) (w_inodes w) (w_umask w) (w_fds w) (w_errno w)
          (w_stdout w) x (w_trace w) (w_faults w).
Definition set_trace (x : list event) (w : World) : World :=
  mkWorld (w_names w) (w_inodes w) (w_umask w) (w_fds w) (w_errno w)
          (w_stdout w) (w_stderr w) x (w_faults w).
Definition set_faults (x : list fault) (w : World) : World :=
  mkWorld (w_names w) (w_inodes w) (w_umask w) (w_fds w) (w_errno w)
          (w_stdout w) (w_stderr w) (w_trace w) x.

Definition log_event (e : event) (w : World) : World :=
  set_trace (w_trace w ++ [e]) w.

(** The next entry of the fault script; an exhausted script means that
    nothing goes wrong any more. *)
Definition next_fault (w : World) : fault * World :=
  match w_faults w with
  | [] => (NoFault, w)
  | f :: fs => (f, set_faults fs w)
  end.

(** *** Processes: state passing with early termination

    A computation either goes on with a value, or has called [exit], or (the
    copy loop only) has used up the iterations it was given. *)
Inductive result (A : Type) :=
| Running (a : A) (w : World)
| Exited (status : Z) (w : World)
| OutOfFuel.
Arguments Running {A} a w.
Arguments Exited {A} status w.
Arguments OutOfFuel {A}.

Definition proc (A : Type) := World -> result A.

Definition ret {A} (a : A) : proc A := fun w => Running a w.

Definition bind {A B} (m : proc A) (k : A -> proc B) : proc B :=
  fun w =>
    match m w with
    | Running a w' => k a w'
    | Exited c w' => Exited c w'
    | OutOfFuel => OutOfFuel
    end.

Definition exit {A} (status : Z) : proc A := fun w => Exited status w.

Notation "'let*' x ':=' m 'in' k" := (bind m (fun x => k))
  (at level 10, x pattern, m at level 100, k at level 200).

(** *** Constants of <fcntl.h> and <errno.h> (Linux, x86-64) *)
Definition O_RDONLY : Z := 0.
Definition O_WRONLY : Z := 1.
Definition O_RDWR : Z := 2.
Definition O_ACCMODE : Z := 3.
Definition O_CREAT : Z := 64.     (* 0100 *)
Definition O_TRUNC : Z := 512.    (* 01000 *)
Definition ENOENT : Z := 2.
Definition EIO : Z := 5.
Definition EBADF : Z := 9.
Definition EACCES : Z := 13.
Definition ENOSPC : Z := 28.

(** The lowest number that is not a key of [m], searched upwards from [n];
    [size m] steps from 0 always find one. *)
Fixpoint first_free {A} (m : gmap nat A) (n fuel : nat) : nat :=
  match fuel with
  | O => n
  | S fuel' =>
      match m !! n with
      | None => n
      | Some _ => first_free m (S n) fuel'
      end
  end.

Definition lowest_free {A} (m : gmap nat A) : nat := first_free m 0%nat (size m).

(** The file a path names, when the path has an entry and the entry a file. *)
Definition resolve (w : World) (path : string) : option nat :=
  match w_names w !! path with
  | Some ino => match w_inodes w !! ino with Some _ => Some ino | None => None end
  | None => None
  end.

Definition lookup_fd (w : World) (fd : Z) : option open_file :=
  if fd <? 0 then None else w_fds w !! Z.to_nat fd.

Definition fail_with {A} (e : Z) (ev : Z -> event) (r : Z -> A) : proc A :=
  fun w => Running (r (-1)) (log_event (ev (-1)) (set_errno e w)).

(** Enter a new open file description at the lowest free descriptor. *)
Definition install (path : string) (flags : Z) (o : open_file) : proc Z :=
  fun w =>
    let fd := lowest_free (w_fds w) in
    Running (Z.of_nat fd)
            (log_event (EvOpen path flags (Z.of_nat fd))
                       (set_fds (<[fd := o]> (w_fds w)) w)).

(** [open(path, flags, mode)]: an existing file is opened, and emptied when
    [O_TRUNC] comes with write access; a missing one is created under
    [O_CREAT] with the permission bits [mode & ~umask]; [mode] plays no part
    for a file that exists. *)
Definition open (path : string) (flags mode : Z) : proc Z :=
  fun w0 =>
    let (f, w) := next_fault w0 in
    let acc := Z.land flags O_ACCMODE in
    let rd := (acc =? O_RDONLY) || (acc =? O_RDWR) in
    let wr := (acc =? O_WRONLY) || (acc =? O_RDWR) in
    match f with
    | Errno e => fail_with e (EvOpen path flags) id w
    | _ =>
        match resolve w path with
        | Some ino =>
            let w1 :=
              if negb (Z.land flags O_TRUNC =? 0) && wr
              then set_inodes
                     (alter (fun i => Inode [] (i_mode i)) ino (w_inodes w)) w
              else w in
            install path flags (OpenFile ino 0 rd wr) w1
        | None =>
            if negb (Z.land flags O_CREAT =? 0) then
              let ino := lowest_free (w_inodes w) in
              let file := Inode [] (Z.land mode (Z.lnot (w_umask w))) in
              install path flags (OpenFile ino 0 rd wr)
                      (set_names (<[path := ino]> (w_names w))
                         (set_inodes (<[ino := file]> (w_inodes w)) w))
            else fail_with ENOENT (EvOpen path flags) id w
        end
    end.

(** How many bytes one transfer of [count] bytes may move under fault [f]. *)
Definition transfer_limit (f : fault) (count : Z) : nat :=
  match f with
  | Short k => Nat.min (Z.to_nat count) (Pos.to_nat k)
  | _ => Z.to_nat count
  end.

(** [read(fd, buf, count)]: the bytes at the offset, at most [count] of
    them, land at the start of [buf]; 0 at the end of the file. *)
Definition read (fd : Z) (buf : list byte) (count : Z) : proc (Z * list byte) :=
  fun w0 =>
    let (f, w) := next_fault w0 in
    let ev := EvRead fd count in
    match f with
    | Errno e => fail_with e ev (fun r => (r, buf)) w
    | _ =>
        match lookup_fd w fd with
        | Some o =>
            match w_inodes w !! o_ino o with
            | Some file =>
                if o_rd o then
                  let chunk :=
                    take (transfer_limit f count) (drop (o_pos o) (i_data file)) in
                  let n := length chunk in
                  let o' := OpenFile (o_ino o) (o_pos o + n) (o_rd o) (o_wr o) in
                  Running (Z.of_nat n, chunk ++ drop n buf)
                          (log_event (ev (Z.of_nat n))
                             (set_fds (<[Z.to_nat fd := o']> (w_fds w)) w))
                else fail_with EBADF ev (fun r => (r, buf)) w
            | None => fail_with EIO ev (fun r => (r, buf)) w
            end
        | None => fail_with EBADF ev (fun r => (r, buf)) w
        end
    end.

(** The bytes of a file after [bs] has been written at offset [pos]; a hole
    before [pos] reads as zeros. *)
Definition write_at (pos : nat) (bs data : list byte) : list byte :=
  take pos data ++ replicate (pos - length data) "000"%byte
    ++ bs ++ drop (pos + length bs) data.

(** [write(fd, buf, count)]: the first [count] bytes of [buf], or fewer
    under a partial write, go to the file at the offset. *)
Definition write (fd : Z) (buf : list byte) (count : Z) : proc Z :=
  fun w0 =>
    let (f, w) := next_fault w0 in
    let ev := EvWrite fd count in
    match f with
    | Errno e => fail_with e ev id w
    | _ =>
        match lookup_fd w fd with
        | Some o =>
            match w_inodes w !! o_ino o with
            | Some file =>
                if o_wr o then
                  let chunk := take (transfer_limit f count) buf in
                  let n := length chunk in
                  let o' := OpenFile (o_ino o) (o_pos o + n) (o_rd o) (o_wr o) in
                  let file' :=
                    Inode (write_at (o_pos o) chunk (i_data file)) (i_mode file) in
                  Running (Z.of_nat n)
                          (log_event (ev (Z.of_nat n))
                             (set_fds (<[Z.to_nat fd := o']> (w_fds w))
                                (set_inodes (<[o_ino o := file']> (w_inodes w)) w)))
                else fail_with EBADF ev id w
            | None => fail_with EIO ev id w
            end
        | None => fail_with EBADF ev id w
        end
    end.

(** [close(fd)]: the descriptor is released even when the call reports an
    error (as Linux does); only a descriptor that is not open is left alone. *)
Definition close (fd : Z) : proc Z :=
  fun w0 =>
    let (f, w) := next_fault w0 in
    match lookup_fd w fd with
    | Some _ =>
        let w1 := set_fds (delete (Z.to_nat fd) (w_fds w)) w in
        match f with
        | Errno e => fail_with e (EvClose fd) id w1
        | _ => Running 0 (log_event (EvClose fd 0) w1)
        end
    | None => fail_with EBADF (EvClose fd) id w
    end.

(** [perror(s)] shows [s] and the text of the current [errno]. *)
Definition perror (s : string) : proc unit :=
  fun w => Running tt (set_stderr (w_stderr w ++ [(s, w_errno w)]) w).

Definition printf (fmt : string) (args : list arg) : proc unit :=
  fun w => Running tt (set_stdout (w_stdout w ++ [Printf fmt args]) w).

(** *** Reading a trace: which handles are held

    [track held tr] follows the opens and closes of [tr] from the handles
    [held] (descriptor and whether it was opened for writing). It gives up
    when a handle is opened while another one of the same kind is held, or
    when a descriptor is closed that is not held; otherwise it returns the
    handles still held at the end. *)
Definition is_writer (flags : Z) : bool :=
  negb (Z.land flags O_ACCMODE =? O_RDONLY).

Definition holds_fd (fd : Z) (held : list (Z * bool)) : bool :=
  existsb (fun h => h.1 =? fd) held.

Definition holds_kind (writer : bool) (held : list (Z * bool)) : bool :=
  existsb (fun h => Bool.eqb h.2 writer) held.

Definition release (fd : Z) (held : list (Z * bool)) : list (Z * bool) :=
  List.filter (fun h => negb (h.1 =? fd)) held.

Fixpoint track (held : list (Z * bool)) (tr : list event)
  : option (list (Z * bool)) :=
  match tr with
  | [] => Some held
  | EvOpen _ flags fd :: tr' =>
      if fd =? -1 then track held tr'
      else if holds_kind (is_writer flags) held then None
      else track ((fd, is_writer flags) :: held) tr'
  | EvClose fd _ :: tr' =>
      if holds_fd fd held then track (release fd held) tr' else None
  | _ :: tr' => track held tr'
  end.

(** Every handle opened is closed once, nothing else is closed, and never
    are two handles of one kind open together. *)
Definition handle_discipline (tr : list event) : Prop := track [] tr = Some [].

(** A read that delivered bytes, or a write that took all it was given. *)
Definition ok_transfer (e : event) : bool :=
  match e with
  | EvRead _ _ r => 0 <? r
  | EvWrite _ c r => r =? c
  | _ => false
  end.

(** A write whose result is not the count asked for; a read that failed. *)
Definition failed_write (e : event) : bool :=
  match e with EvWrite _ c r => negb (r =? c) | _ => false end.

Definition failed_read (e : event) : bool :=
  match e with EvRead _ _ r => r <? 0 | _ => false end.

(** An open file description [k] bytes further on. *)
Definition advance (o : open_file) (k : nat) : open_file :=
  OpenFile (o_ino o) (o_pos o + k) (o_rd o) (o_wr o).

(** The size of the file a path names (0 when it names none). *)
Definition file_size (w : World) (path : string) : nat :=
  match w_names w !! path with
  | Some ino =>
      match w_inodes w !! ino with
      | Some file => length (i_data file)
      | None => 0%nat
      end
  | None => 0%nat
  end.

(** The bytes and the permission bits of the file a path names. *)
Definition contents (w : World) (path : string) : option (list byte) :=
  ino ← w_names w !! path; file ← w_inodes w !! ino; Some (i_data file).

Definition permissions (w : World) (path : string) : option Z :=
  ino ← w_names w !! path; file ← w_inodes w !! ino; Some (i_mode file).

End Posix.

(** ** Ejercicio 2: the copier *)

Module Files.
Import Posix.
Local Open Scope Z_scope.

Definition BUFFER_SIZE : Z := 1024.

(** [argv[i]]; past the end the vector holds a null pointer, shown the way
    glibc's [printf] shows one. *)
Definition argv_at (argv : list string) (i : nat) : string :=
  nth i argv "(null)"%string.

(** The [while] loop of [main]. It returns the last [bytes_read], which is
    0 or negative; each unit of [fuel] pays for one [read]. *)
Fixpoint copy_loop (fuel : nat) (fd_src fd_dest : Z) (buffer : list byte)
  : proc Z :=
  match fuel with
  | O => fun _ => OutOfFuel
  | S fuel' =>
      let* (bytes_read, buffer) := read fd_src buffer BUFFER_SIZE in
      if bytes_read >? 0 then
        let* bytes_written := write fd_dest buffer bytes_read in
        if negb (bytes_written =? bytes_read) then
          let* _ := perror "Error al escribir" in
          let* _ := close fd_src in
          let* _ := close fd_dest in
          exit 1
        else copy_loop fuel' fd_src fd_dest buffer
      else ret bytes_read
  end.

Definition mode_0644 : Z := 6 * 64 + 4 * 8 + 4.

Definition main (fuel : nat) (argv : list string) : proc Z :=
  let argc := Z.of_nat (length argv) in
  if negb (argc =? 3) then
    let* _ := printf "Uso correcto: %s <archivo_origen> <archivo_destino>\n"
                     [ArgS (argv_at argv 0)] in
    exit 1
  else
    let source_file := argv_at argv 1 in
    let dest_file := argv_at argv 2 in
    let buffer := replicate (Z.to_nat BUFFER_SIZE) "000"%byte in
    let* fd_src := open source_file O_RDONLY 0 in
    if fd_src =? -1 then
      let* _ := perror "Error al abrir archivo origen" in
      exit 1
    else
      let* fd_dest :=
        open dest_file (Z.lor (Z.lor O_WRONLY O_CREAT) O_TRUNC) mode_0644 in
      if fd_dest =? -1 then
        let* _ := perror "Error al crear archivo destino" in
        let* _ := close fd_src in
        exit 1
      else
        let* bytes_read := copy_loop fuel fd_src fd_dest buffer in
        let* _ := (if bytes_read =? -1 then perror "Error al leer" else ret tt) in
        let* _ := close fd_src in
        let* _ := close fd_dest in
        let* _ := printf "Copia completada exitosamente.\n" [] in
        ret 0.

(** The exit status of the process and the world it leaves: the value
    [main] returns, or the argument of [exit]. *)
Definition run (fuel : nat) (argv : list string) (w : World) : option (Z * World) :=
  match main fuel argv w with
  | Running status w' => Some (status, w')
  | Exited status w' => Some (status, w')
  | OutOfFuel => None
  end.

(** The flags of the destination: [O_WRONLY | O_CREAT | O_TRUNC]. *)
Definition creat_flags : Z := Z.lor (Z.lor O_WRONLY O_CREAT) O_TRUNC.

(** The buffer as [main] first has it, and the worlds after [perror(s)]
    and after a [printf] without arguments. *)
Definition buffer0 : list byte := replicate (Z.to_nat BUFFER_SIZE) "000"%byte.

Definition say_error (s : string) (w : World) : World :=
  set_stderr (w_stderr w ++ [(s, w_errno w)]) w.

Definition say (fmt : string) (w : World) : World :=
  set_stdout (w_stdout w ++ [Printf fmt []]) w.

(** The ways a run with two path arguments can go. Each gives the exit
    status and the system calls made. *)
Inductive copy_path (src dst : string) (w w' : World) : Z -> list event -> Prop :=
| SourceOpenError e :
    w_names w' = w_names w -> w_inodes w' = w_inodes w ->
    w_stdout w' = w_stdout w ->
    w_stderr w' = w_stderr w ++ [("Error al abrir archivo origen"%string, e)] ->
    copy_path src dst w w' 1 [EvOpen src O_RDONLY (-1)]
| DestOpenError a r e :
    a <> -1 ->
    w_names w' = w_names w -> w_inodes w' = w_inodes w ->
    w_stdout w' = w_stdout w ->
    w_stderr w' = w_stderr w ++ [("Error al crear archivo destino"%string, e)] ->
    copy_path src dst w w' 1
      [EvOpen src O_RDONLY a; EvOpen dst creat_flags (-1); EvClose a r]
| WriteError a b io n m r1 r2 e :
    a <> -1 -> b <> -1 -> a <> b ->
    Forall (fun ev => ok_transfer ev = true) io -> 0 < n -> m <> n ->
    w_stdout w' = w_stdout w ->
    w_stderr w' = w_stderr w ++ [("Error al escribir"%string, e)] ->
    copy_path src dst w w' 1
      ([EvOpen src O_RDONLY a; EvOpen dst creat_flags b] ++ io ++
       [EvRead a BUFFER_SIZE n; EvWrite b n m; EvClose a r1; EvClose b r2])
| LoopEnd a b io n r1 r2 (isrc idst : nat) file copied rest md :
    a <> -1 -> b <> -1 -> a <> b ->
    Forall (fun ev => ok_transfer ev = true) io ->
    (n = 0 /\ w_stderr w' = w_stderr w \/
     n = -1 /\ exists e,
       w_stderr w' = w_stderr w ++ [("Error al leer"%string, e)]) ->
    w_stdout w' =
      w_stdout w ++ [Printf "Copia completada exitosamente.\n" []] ->
    resolve w src = Some isrc -> w_inodes w !! isrc = Some file ->
    w_names w' = <[dst := idst]> (w_names w) ->
    w_inodes w' = <[idst := Inode copied md]> (w_inodes w) ->
    (resolve w dst = Some idst /\
       (exists old, w_inodes w !! idst = Some old /\ md = i_mode old) \/
     resolve w dst = None /\ w_inodes w !! idst = None /\
       md = Z.land mode_0644 (Z.lnot (w_umask w))) ->
    (if decide (idst = isrc) then [] else i_data file) = copied ++ rest ->
    (n = 0 -> rest = []) ->
    copy_path src dst w w' 0
      ([EvOpen src O_RDONLY a; EvOpen dst creat_flags b] ++ io ++
       [EvRead a BUFFER_SIZE n; EvClose a r1; EvClose b r2]).

(** A transfer that stays inside the buffer: a read asks for the whole
    buffer and returns no more than that; a write sends between one byte and
    a buffer full, and reports no more than it was given. *)
Definition within_buffer (e : event) : bool :=
  match e with
  | EvRead _ count r =>
      (count =? BUFFER_SIZE) && (-1 <=? r) && (r <=? BUFFER_SIZE)
  | EvWrite _ count r =>
      (0 <? count) && (count <=? BUFFER_SIZE) && (-1 <=? r) && (r <=? count)
  | _ => true
  end.

End Files.

(** ** Ejercicio 3: the system call and its test *)

Module Mycall.
Import Posix.
Local Open Scope Z_scope.

Definition INT_MIN : Z := - 2 ^ 31.
Definition INT_MAX : Z := 2 ^ 31 - 1.

(** Conversion to [int]. The kernel is compiled with wrapping signed
    arithmetic, so this is also what [int] addition does on overflow. *)
Definition to_int (z : Z) : Z := (z + 2 ^ 31) mod 2 ^ 32 - 2 ^ 31.

(** One line of the kernel log: level, format and the [%d] argument. *)
Inductive klog_entry := Printk (level fmt : string) (d : Z).

(** [SYSCALL_DEFINE1(mycall, int, i)]: the body, on an [int] argument. The
    [int] sum is returned as a [long], which changes no value. *)
Definition sys_mycall (i : Z) (klog : list klog_entry) : Z * list klog_entry :=
  (to_int (i + 10),
   klog ++ [Printk "KERN_INFO" "Hola desde el PapuKernel!! Recibi: %d\n" i]).

Definition __NR_mycall : Z := 470.
Definition ENOSYS : Z := 38.

(** Kernel entry: [syscall_64.tbl] has the line [470 common mycall
    sys_mycall]; the register that carries the argument is cut to [int] by
    the [SYSCALL_DEFINE1] wrapper. Other numbers are not modelled. *)
Definition do_syscall_64 (nr a1 : Z) (klog : list klog_entry)
  : Z * list klog_entry :=
  if nr =? 470 then sys_mycall (to_int a1) klog else (- ENOSYS, klog).

(** The user process of [prueba.c]. *)
Record User := mkUser {
  u_klog : list klog_entry;
  u_errno : Z;
  u_stdout : list out
}.

(** glibc's [syscall()]: a kernel result in [-4095, -1] is an error number;
    it goes to [errno] and the call returns -1. *)
Definition syscall (nr a1 : Z) (u : User) : Z * User :=
  let (r, klog) := do_syscall_64 nr a1 (u_klog u) in
  if (-4095 <=? r) && (r <=? -1)
  then (-1, mkUser klog (- r) (u_stdout u))
  else (r, mkUser klog (u_errno u) (u_stdout u)).

Definition uprintf (fmt : string) (args : list arg) (u : User) : User :=
  mkUser (u_klog u) (u_errno u) (u_stdout u ++ [Printf fmt args]).

(** [main] of [prueba.c]: the exit status and the final state. *)
Definition main (u : User) : Z * User :=
  let u := uprintf "--- Iniciando prueba de Syscall ---\n" [] u in
  let (res, u) := syscall __NR_mycall 50 u in
  let u := uprintf "Resultado devuelto por el kernel: %ld\n" [ArgZ res] u in
  let u :=
    if res =? 60 then uprintf "Funko el kernel\n" [] u
    else uprintf "No funko el kernel\n" [] u in
  (0, u).

End Mycall.

(** ** Concrete worlds for the examples *)

Module Scenario.
Import Posix Files.
Local Open Scope Z_scope.

(** [n] bytes that are not all alike. *)
Definition pattern (n : nat) : list byte :=
  map (fun i => default "000"%byte (Byte.of_nat (i mod 251))) (seq 0 n).

Definition tty : open_file := OpenFile 0 0 true true.

(** A process with the three standard descriptors on a terminal (inode 0),
    umask 022, and a directory that holds [origen.bin] (2500 bytes, mode
    0640), [viejo.txt] (5 bytes, mode 0600) and [vacio] (empty). *)
Definition world (faults : list fault) : World :=
  mkWorld
    {[ "origen.bin"%string := 1%nat; "viejo.txt"%string := 2%nat;
       "vacio"%string := 3%nat ]}
    {[ 0%nat := Inode [] 400; 1%nat := Inode (pattern 2500) 416;
       2%nat := Inode (pattern 5) 384; 3%nat := Inode [] 420 ]}
    18
    {[ 0%nat := tty; 1%nat := tty; 2%nat := tty ]}
    0 [] [] [] faults.

(** What a finished run shows: status, standard output, standard error
    and the system calls made. *)
Definition report (r : option (Z * World))
  : option (Z * list out * list (string * Z) * list event) :=
  match r with
  | Some (status, w) => Some (status, w_stdout w, w_stderr w, w_trace w)
  | None => None
  end.

(** The bytes, and the permission bits, a path names after the run. *)
Definition contents_after (r : option (Z * World)) (path : string)
  : option (list byte) :=
  match r with Some (_, w) => contents w path | None => None end.

Definition permissions_after (r : option (Z * World)) (path : string)
  : option Z :=
  match r with Some (_, w) => permissions w path | None => None end.

End Scenario.

(** ** Facts about the operating system *)

Import Posix Files.
Local Open Scope Z_scope.

Section LowestFree.
Context {A : Type}.
Implicit Types m : gmap nat A.

Lemma first_free_fresh m (fuel n : nat) :
  (forall k : nat, (k < n)%nat -> is_Some (m !! k)) ->
  (n + fuel)%nat = size m ->
  m !! first_free m n fuel = None.
Proof.
  revert n. induction fuel as [|fuel IH]; intros n Hbelow Hsize; simpl.
  - destruct (m !! n) as [x|] eqn:Hn; [|done]. exfalso.
    assert (Hsub : (set_seq 0 (S n) : gset nat) ⊆ dom m).
    { intros k Hk. apply elem_of_set_seq in Hk. apply elem_of_dom.
      destruct (decide (k = n)) as [->|]; [eauto|]. apply Hbelow. lia. }
    apply subseteq_size in Hsub.
    rewrite size_set_seq, size_dom in Hsub. lia.
  - destruct (m !! n) as [x|] eqn:Hn; [|done].
    apply IH; [|lia]. intros k Hk.
    destruct (decide (k = n)) as [->|]; [eauto|]. apply Hbelow. lia.
Qed.

Lemma lowest_free_fresh m : m !! lowest_free m = None.
Proof. apply first_free_fresh; [lia|done]. Qed.
End LowestFree.

Lemma next_fault_frame w f w' :
  next_fault w = (f, w') ->
  w_names w' = w_names w /\ w_inodes w' = w_inodes w /\
  w_umask w' = w_umask w /\ w_fds w' = w_fds w /\ w_errno w' = w_errno w /\
  w_stdout w' = w_stdout w /\ w_stderr w' = w_stderr w /\
  w_trace w' = w_trace w.
Proof.
  unfold next_fault. destruct (w_faults w); intros [= <- <-]; simpl; tauto.
Qed.

Lemma install_ok path flags o w :
  exists n : nat,
    w_fds w !! n = None /\
    install path flags o w =
      Running (Z.of_nat n)
        (log_event (EvOpen path flags (Z.of_nat n))
           (set_fds (<[n := o]> (w_fds w)) w)).
Proof. exists (lowest_free (w_fds w)). split; [apply lowest_free_fresh|done]. Qed.

Ltac world_fields :=
  repeat match goal with
  | H : next_fault _ = _ |- _ => apply next_fault_frame in H; destruct_and? H
  end; simpl in *; repeat split; try congruence.

Lemma open_fail path flags mode w w1 :
  open path flags mode w = Running (-1) w1 ->
  w_names w1 = w_names w /\ w_inodes w1 = w_inodes w /\ w_fds w1 = w_fds w /\
  w_umask w1 = w_umask w /\ w_stdout w1 = w_stdout w /\
  w_stderr w1 = w_stderr w /\
  w_trace w1 = w_trace w ++ [EvOpen path flags (-1)].
Proof.
  unfold open. destruct (next_fault w) as [f wf] eqn:Hnf. cbv zeta.
  assert (Hinst : forall o wi, install path flags o wi <> Running (-1) w1).
  { intros o wi. destruct (install_ok path flags o wi) as (n & _ & ->).
    intros [= Hn _]. lia. }
  intros H.
  assert (Hfail : exists e, fail_with e (EvOpen path flags) id wf = Running (-1) w1).
  { destruct f; eauto; destruct (resolve wf path); try (by apply Hinst in H);
      destruct (negb (Z.land flags O_CREAT =? 0)); try (by apply Hinst in H); eauto. }
  destruct Hfail as [e [= <-]]. world_fields.
Qed.

(** The descriptor an open call hands out is never the error value. *)
Lemma open_rdonly_ok path mode w fd w1 :
  open path O_RDONLY mode w = Running fd w1 -> fd <> -1 ->
  exists (n ino : nat),
    fd = Z.of_nat n /\ w_fds w !! n = None /\ resolve w path = Some ino /\
    w_fds w1 = <[n := OpenFile ino 0 true false]> (w_fds w) /\
    w_names w1 = w_names w /\ w_inodes w1 = w_inodes w /\
    w_umask w1 = w_umask w /\ w_stdout w1 = w_stdout w /\
    w_stderr w1 = w_stderr w /\
    w_trace w1 = w_trace w ++ [EvOpen path O_RDONLY fd].
Proof.
  unfold open. destruct (next_fault w) as [f wf] eqn:Hnf. cbv zeta.
  intros H Hfd.
  assert (Hres : resolve wf path = resolve w path).
  { unfold resolve. apply next_fault_frame in Hnf as (Hn1 & Hn2 & _).
    by rewrite Hn1, Hn2. }
  assert (Hok :
    exists ino, resolve wf path = Some ino /\
      install path O_RDONLY (OpenFile ino 0 true false) wf = Running fd w1).
  { destruct f; try (by injection H as [= <- _]);
      (destruct (resolve wf path) as [ino|];
        [exists ino; split; [done|exact H] | by injection H as [= <- _]]). }
  destruct Hok as (ino & Hino & Hinst).
  destruct (install_ok path O_RDONLY (OpenFile ino 0 true false) wf)
    as (n & Hn & Heq).
  rewrite Heq in Hinst. injection Hinst as [= <- <-].
  exists n, ino. rewrite <- Hres.
  apply next_fault_frame in Hnf. destruct_and? Hnf. simpl.
  repeat split; congruence.
Qed.

Lemma resolve_Some w path ino :
  resolve w path = Some ino <->
  w_names w !! path = Some ino /\ is_Some (w_inodes w !! ino).
Proof.
  unfold resolve. destruct (w_names w !! path) as [i|].
  - destruct (w_inodes w !! i) eqn:Hi.
    + split.
      * intros [= ->]. rewrite Hi. eauto.
      * by intros [[= ->] _].
    + split; [done|]. intros [[= ->] [x Hx]]. congruence.
  - split; [done|]. by intros [[=] _].
Qed.

Lemma alter_as_insert {A} (f : A -> A) (m : gmap nat A) i x :
  m !! i = Some x -> alter f i m = <[i := f x]> m.
Proof.
  intros Hi. apply map_eq. intros j. rewrite lookup_alter, lookup_insert.
  case_decide; [subst; by rewrite Hi|done].
Qed.

(** A successful [open] of the destination: the path names an empty file
    afterwards, which keeps its permission bits if it was there before and
    gets [mode & ~umask] if it is new. *)
Lemma open_creat_ok path mode w fd w1 :
  open path creat_flags mode w = Running fd w1 -> fd <> -1 ->
  exists (n ino : nat) (m : Z),
    fd = Z.of_nat n /\ w_fds w !! n = None /\
    w_fds w1 = <[n := OpenFile ino 0 false true]> (w_fds w) /\
    w_names w1 = <[path := ino]> (w_names w) /\
    w_inodes w1 = <[ino := Inode [] m]> (w_inodes w) /\
    ((resolve w path = Some ino /\
      exists file, w_inodes w !! ino = Some file /\ m = i_mode file) \/
     (resolve w path = None /\ w_inodes w !! ino = None /\
      m = Z.land mode (Z.lnot (w_umask w)))) /\
    w_umask w1 = w_umask w /\ w_stdout w1 = w_stdout w /\
    w_stderr w1 = w_stderr w /\
    w_trace w1 = w_trace w ++ [EvOpen path creat_flags fd].
Proof.
  unfold open. destruct (next_fault w) as [f wf] eqn:Hnf.
  change (negb (Z.land creat_flags O_TRUNC =? 0)) with true.
  change (negb (Z.land creat_flags O_CREAT =? 0)) with true.
  change (Z.land creat_flags O_ACCMODE) with 1.
  change ((1 =? O_RDONLY) || (1 =? O_RDWR)) with false.
  change ((1 =? O_WRONLY) || (1 =? O_RDWR)) with true.
  cbv zeta. simpl andb. cbv iota.
  intros H Hfd.
  assert (Hres : resolve wf path = resolve w path).
  { unfold resolve. apply next_fault_frame in Hnf as (Hn1 & Hn2 & _).
    by rewrite Hn1, Hn2. }
  pose proof (next_fault_frame _ _ _ Hnf) as Hfr. destruct_and? Hfr.
  assert (Hok :
    match resolve w path with
    | Some ino =>
        install path creat_flags (OpenFile ino 0 false true)
          (set_inodes
             (alter (fun i => Inode [] (i_mode i)) ino (w_inodes wf)) wf)
    | None =>
        install path creat_flags
          (OpenFile (lowest_free (w_inodes wf)) 0 false true)
          (set_names (<[path := lowest_free (w_inodes wf)]> (w_names wf))
             (set_inodes
                (<[lowest_free (w_inodes wf) :=
                     Inode [] (Z.land mode (Z.lnot (w_umask wf)))]>
                   (w_inodes wf)) wf))
    end = Running fd w1).
  { rewrite <- Hres. destruct f; try (by injection H as [= <- _]); exact H. }
  clear H. destruct (resolve w path) as [ino|] eqn:Hr.
  - match type of Hok with install ?p ?fl ?o ?wi = _ =>
      destruct (install_ok p fl o wi) as (n & Hn & Heq) end.
    rewrite Heq in Hok. injection Hok as [= <- <-].
    apply resolve_Some in Hr as [Hname [file Hfile]].
    exists n, ino, (i_mode file). simpl in *.
    rewrite (alter_as_insert _ _ _ file) by congruence.
    rewrite (insert_id (w_names w) path ino) by done.
    repeat split; try congruence. left. split; [done|]. eauto.
  - match type of Hok with install ?p ?fl ?o ?wi = _ =>
      destruct (install_ok p fl o wi) as (n & Hn & Heq) end.
    rewrite Heq in Hok. injection Hok as [= <- <-].
    exists n, (lowest_free (w_inodes wf)), (Z.land mode (Z.lnot (w_umask w))).
    simpl in *. repeat split; try congruence. right.
    repeat split. rewrite <- (lowest_free_fresh (w_inodes wf)). congruence.
Qed.

Lemma lookup_fd_nat w (n : nat) : lookup_fd w (Z.of_nat n) = w_fds w !! n.
Proof.
  unfold lookup_fd. destruct (Z.ltb_spec (Z.of_nat n) 0); [lia|].
  by rewrite Nat2Z.id.
Qed.

(** [read] on a readable descriptor of an existing file: an error that
    changes nothing, or the next [k] bytes, where [k] is 0 only at the end
    of the file. *)
Lemma read_known (s : nat) o file buf count w :
  w_fds w !! s = Some o -> o_rd o = true ->
  w_inodes w !! o_ino o = Some file -> 0 < count ->
  exists n buf' w',
    read (Z.of_nat s) buf count w = Running (n, buf') w' /\
    w_names w' = w_names w /\ w_inodes w' = w_inodes w /\
    w_umask w' = w_umask w /\ w_stdout w' = w_stdout w /\
    w_stderr w' = w_stderr w /\
    w_trace w' = w_trace w ++ [EvRead (Z.of_nat s) count n] /\
    ((n = -1 /\ w_fds w' = w_fds w /\ buf' = buf) \/
     (exists k : nat,
        n = Z.of_nat k /\ (k <= Z.to_nat count)%nat /\
        (k <= length (i_data file) - o_pos o)%nat /\
        (k = 0%nat -> (length (i_data file) <= o_pos o)%nat) /\
        buf' = take k (drop (o_pos o) (i_data file)) ++ drop k buf /\
        w_fds w' = <[s := advance o k]> (w_fds w))).
Proof.
  intros Hs Hrd Hfile Hcount. unfold read.
  destruct (next_fault w) as [f wf] eqn:Hnf.
  pose proof (next_fault_frame _ _ _ Hnf) as Hfr. destruct_and? Hfr.
  rewrite lookup_fd_nat, Nat2Z.id.
  replace (w_fds wf !! s) with (Some o) by congruence.
  replace (w_inodes wf !! o_ino o) with (Some file) by congruence.
  rewrite Hrd. cbv zeta.
  set (chunk := take (transfer_limit f count) (drop (o_pos o) (i_data file))).
  assert (Hlim : (1 <= transfer_limit f count <= Z.to_nat count)%nat).
  { destruct f; simpl; lia. }
  assert (Hlen : length chunk =
            Nat.min (transfer_limit f count) (length (i_data file) - o_pos o)).
  { unfold chunk. by rewrite length_take, length_drop. }
  assert (Hchunk : chunk = take (length chunk) (drop (o_pos o) (i_data file))).
  { rewrite Hlen. unfold chunk.
    destruct (Nat.le_gt_cases (transfer_limit f count)
                (length (i_data file) - o_pos o)) as [Hle|Hgt].
    - by rewrite Nat.min_l.
    - rewrite Nat.min_r by lia.
      rewrite !take_ge; [done| |]; rewrite length_drop; lia. }
  destruct f as [|e|p].
  2:{ do 3 eexists. split; [reflexivity|]. simpl.
      repeat split; try congruence. left. repeat split; congruence. }
  all: do 3 eexists; (split; [reflexivity|]); simpl;
    repeat split; try congruence; right; exists (length chunk);
    repeat split; try lia; try congruence;
    unfold advance; simpl; congruence.
Qed.

(** [write] on a writable descriptor of an existing file, from a buffer
    that holds the [count] bytes. *)
Lemma write_known (d : nat) o file buf count w :
  w_fds w !! d = Some o -> o_wr o = true ->
  w_inodes w !! o_ino o = Some file ->
  0 < count -> (Z.to_nat count <= length buf)%nat ->
  exists m o' w',
    write (Z.of_nat d) buf count w = Running m w' /\
    w_names w' = w_names w /\ w_umask w' = w_umask w /\
    w_stdout w' = w_stdout w /\ w_stderr w' = w_stderr w /\
    w_trace w' = w_trace w ++ [EvWrite (Z.of_nat d) count m] /\
    w_fds w' = <[d := o']> (w_fds w) /\
    (m = count ->
       o' = advance o (Z.to_nat count) /\
       w_inodes w' =
         <[o_ino o := Inode (write_at (o_pos o) (take (Z.to_nat count) buf)
                               (i_data file)) (i_mode file)]> (w_inodes w)).
Proof.
  intros Hd Hwr Hfile Hcount Hbuf. unfold write.
  destruct (next_fault w) as [f wf] eqn:Hnf.
  pose proof (next_fault_frame _ _ _ Hnf) as Hfr. destruct_and? Hfr.
  rewrite lookup_fd_nat, Nat2Z.id.
  replace (w_fds wf !! d) with (Some o) by congruence.
  replace (w_inodes wf !! o_ino o) with (Some file) by congruence.
  rewrite Hwr. cbv zeta.
  assert (Hlim : (transfer_limit f count <= Z.to_nat count)%nat).
  { destruct f; simpl; lia. }
  assert (Hlen : length (take (transfer_limit f count) buf) = transfer_limit f count).
  { rewrite length_take. lia. }
  assert (Hfull : Z.of_nat (transfer_limit f count) = count ->
            transfer_limit f count = Z.to_nat count) by lia.
  remember (transfer_limit f count) as lim eqn:Elim. clear Elim.
  destruct f as [|e|p].
  2:{ exists (-1), o. eexists. split; [reflexivity|]. simpl.
      split_and!; try congruence.
      - rewrite insert_id; congruence.
      - lia. }
  all: rewrite Hlen; exists (Z.of_nat lim), (advance o lim); eexists;
    (split; [reflexivity|]); simpl; unfold advance; rewrite ?Hwr;
    split_and!; try congruence;
    intros Hm; apply Hfull in Hm; rewrite Hm; split; congruence.
Qed.

Lemma close_known (s : nat) o w :
  w_fds w !! s = Some o ->
  exists r w',
    close (Z.of_nat s) w = Running r w' /\
    w_fds w' = delete s (w_fds w) /\
    w_names w' = w_names w /\ w_inodes w' = w_inodes w /\
    w_umask w' = w_umask w /\ w_stdout w' = w_stdout w /\
    w_stderr w' = w_stderr w /\
    w_trace w' = w_trace w ++ [EvClose (Z.of_nat s) r].
Proof.
  intros Hs. unfold close.
  destruct (next_fault w) as [f wf] eqn:Hnf.
  pose proof (next_fault_frame _ _ _ Hnf) as Hfr. destruct_and? Hfr.
  rewrite lookup_fd_nat, Nat2Z.id.
  replace (w_fds wf !! s) with (Some o) by congruence.
  destruct f; do 2 eexists; (split; [reflexivity|]); simpl;
    repeat split; congruence.
Qed.

(** ** The copy loop *)

Lemma copy_loop_S fuel fd_src fd_dest buffer w :
  copy_loop (S fuel) fd_src fd_dest buffer w =
  match read fd_src buffer BUFFER_SIZE w with
  | Running (bytes_read, buffer) w1 =>
      if bytes_read >? 0 then
        match write fd_dest buffer bytes_read w1 with
        | Running bytes_written w2 =>
            if negb (bytes_written =? bytes_read) then
              match close fd_src
                      (set_stderr
                         (w_stderr w2 ++ [("Error al escribir"%string, w_errno w2)])
                         w2) with
              | Running _ w3 =>
                  match close fd_dest w3 with
                  | Running _ w4 => Exited 1 w4
                  | Exited c w4 => Exited c w4
                  | OutOfFuel => OutOfFuel
                  end
              | Exited c w3 => Exited c w3
              | OutOfFuel => OutOfFuel
              end
            else copy_loop fuel fd_src fd_dest buffer w2
        | Exited c w2 => Exited c w2
        | OutOfFuel => OutOfFuel
        end
      else Running bytes_read w1
  | Exited c w1 => Exited c w1
  | OutOfFuel => OutOfFuel
  end.
Proof.
  simpl. unfold bind, perror, exit, ret.
  destruct (read fd_src buffer BUFFER_SIZE w) as [[n b] w1| |]; try done.
  destruct (n >? 0); [|done].
  destruct (write fd_dest b n w1) as [m w2| |]; try done.
  by destruct (negb (m =? n)).
Qed.

Lemma write_at_end (bs data : list byte) :
  write_at (length data) bs data = data ++ bs.
Proof.
  unfold write_at. rewrite firstn_all, Nat.sub_diag. simpl.
  rewrite drop_ge by lia. by rewrite app_nil_r.
Qed.

(** The loop on a source and a destination that are different files, the
    destination being written at its end. *)
Lemma copy_loop_spec (s d isrc idst : nat) (base : gmap nat open_file)
    (datas : list byte) (ms md : Z) :
  s <> d -> isrc <> idst -> base !! s = None -> base !! d = None ->
  forall (fuel ps : nat) (datad buf : list byte) (w : World),
    w_fds w = <[s := OpenFile isrc ps true false]>
                (<[d := OpenFile idst (length datad) false true]> base) ->
    w_inodes w !! isrc = Some (Inode datas ms) ->
    w_inodes w !! idst = Some (Inode datad md) ->
    length buf = Z.to_nat BUFFER_SIZE ->
    (length datas - ps < fuel)%nat ->
    exists io, Forall (fun e => ok_transfer e = true) io /\
      ((exists n w' os od copied rest,
          copy_loop fuel (Z.of_nat s) (Z.of_nat d) buf w = Running n w' /\
          (n = 0 \/ n = -1) /\
          drop ps datas = copied ++ rest /\ (n = 0 -> rest = []) /\
          w_fds w' = <[s := os]> (<[d := od]> base) /\
          w_inodes w' = <[idst := Inode (datad ++ copied) md]> (w_inodes w) /\
          w_names w' = w_names w /\ w_umask w' = w_umask w /\
          w_stdout w' = w_stdout w /\ w_stderr w' = w_stderr w /\
          w_trace w' =
            w_trace w ++ io ++ [EvRead (Z.of_nat s) BUFFER_SIZE n]) \/
       (exists w' c m r1 r2 e,
          copy_loop fuel (Z.of_nat s) (Z.of_nat d) buf w = Exited 1 w' /\
          0 < c /\ m <> c /\
          w_fds w' = base /\
          w_names w' = w_names w /\ w_umask w' = w_umask w /\
          w_stdout w' = w_stdout w /\
          w_stderr w' = w_stderr w ++ [("Error al escribir"%string, e)] /\
          w_trace w' =
            w_trace w ++ io ++
              [EvRead (Z.of_nat s) BUFFER_SIZE c; EvWrite (Z.of_nat d) c m;
               EvClose (Z.of_nat s) r1; EvClose (Z.of_nat d) r2])).
Proof.
  intros Hsd Hino Hbs Hbd. induction fuel as [|fuel IH];
    intros ps datad buf w Hfds Hsrc Hdst Hbuf Hfuel; [lia|].
  rewrite copy_loop_S.
  destruct (read_known s (OpenFile isrc ps true false) (Inode datas ms) buf
              BUFFER_SIZE w) as (n & buf' & w1 & -> & Hn1 & Hi1 & Hu1 & Ho1 &
                                 He1 & Ht1 & Hcase); try done.
  { rewrite Hfds. apply lookup_insert_eq. }
  simpl in Hcase.
  destruct Hcase as [(-> & Hf1 & ->) | (k & -> & Hk1 & Hk2 & Hk0 & -> & Hf1)].
  - (* the read fails *)
    exists []. split; [constructor|]. left.
    exists (-1), w1, (OpenFile isrc ps true false),
      (OpenFile idst (length datad) false true), [], (drop ps datas).
    simpl. split_and!; try done; try congruence; try tauto.
    rewrite app_nil_r, Hi1. by rewrite insert_id.
  - destruct (Z.gtb_spec (Z.of_nat k) 0) as [Hpos|Hzero].
    2:{ (* end of the file *)
        assert (k = 0%nat) as -> by lia.
        exists []. split; [constructor|]. left.
        exists 0, w1, (advance (OpenFile isrc ps true false) 0),
          (OpenFile idst (length datad) false true), [], [].
        simpl. split_and!; try done; try congruence; try tauto.
        + rewrite drop_ge; [done|]. apply Hk0. done.
        + rewrite Hf1, Hfds. by rewrite insert_insert_eq.
        + rewrite app_nil_r, Hi1. by rewrite insert_id. }
    set (chunk := take k (drop ps datas)) in *.
    assert (Hchunk : length chunk = k).
    { unfold chunk. rewrite length_take, length_drop. lia. }
    destruct (write_known d (OpenFile idst (length datad) false true)
                (Inode datad md) (chunk ++ drop k buf) (Z.of_nat k) w1)
      as (m & o' & w2 & -> & Hn2 & Hu2 & Ho2 & He2 & Ht2 & Hf2 & Hfull);
      try done.
    { rewrite Hf1, Hfds. rewrite lookup_insert_ne by done.
      rewrite lookup_insert_ne by done. apply lookup_insert_eq. }
    { simpl. by rewrite Hi1. }
    { rewrite length_app, Nat2Z.id. lia. }
    destruct (Z.eqb_spec m (Z.of_nat k)) as [->|Hm]; simpl negb; cbv iota.
    + (* a full write: go round again *)
      destruct (Hfull eq_refl) as [-> Hi2]. simpl in Hi2.
      rewrite Nat2Z.id in Hi2.
      rewrite take_app_length' in Hi2 by done.
      rewrite write_at_end in Hi2.
      destruct (IH (ps + k)%nat (datad ++ chunk) (chunk ++ drop k buf) w2)
        as (io & Hio & Hres).
      { rewrite Hf2, Hf1, Hfds. unfold advance. simpl.
        rewrite length_app, Hchunk, Nat2Z.id.
        apply map_eq. intros j. rewrite !lookup_insert.
        repeat case_decide; congruence. }
      { rewrite Hi2, Hi1. by rewrite lookup_insert_ne. }
      { rewrite Hi2. apply lookup_insert_eq. }
      { rewrite length_app, length_drop, Hchunk. lia. }
      { lia. }
      exists (EvRead (Z.of_nat s) BUFFER_SIZE (Z.of_nat k)
              :: EvWrite (Z.of_nat d) (Z.of_nat k) (Z.of_nat k) :: io).
      split.
      { repeat constructor; simpl; [lia|lia|done]. }
      assert (Hdrop : drop (ps + k) datas = drop k (drop ps datas)).
      { by rewrite drop_drop. }
      destruct Hres as
        [(n & w' & os & od & copied & rest & -> & Hn & Hsplit & Hrest & Hf' &
          Hi' & Hn' & Hu' & Ho' & He' & Ht') |
         (w' & c & m & r1 & r2 & e & -> & Hc & Hm & Hf' & Hn' & Hu' & Ho' &
          He' & Ht')].
      * left. exists n, w', os, od, (chunk ++ copied), rest.
        split_and!; try done; try congruence.
        -- rewrite <- (take_drop k (drop ps datas)). fold chunk.
           rewrite <- Hdrop, Hsplit. by rewrite app_assoc.
        -- rewrite Hi', Hi2, Hi1. rewrite insert_insert_eq.
           by rewrite app_assoc.
        -- rewrite Ht', Ht2, Ht1. by rewrite <- !app_assoc.
      * right. exists w', c, m, r1, r2, e.
        split_and!; try done; try congruence.
        rewrite Ht', Ht2, Ht1. by rewrite <- !app_assoc.
    + (* a partial or failed write *)
      exists []. split; [constructor|]. right.
      set (w2' := set_stderr _ w2).
      destruct (close_known s (advance (OpenFile isrc ps true false) k) w2')
        as (r1 & w3 & -> & Hf3 & Hn3 & Hi3 & Hu3 & Ho3 & He3 & Ht3).
      { simpl. rewrite Hf2, Hf1. rewrite lookup_insert_ne by done.
        apply lookup_insert_eq. }
      destruct (close_known d o' w3)
        as (r2 & w4 & -> & Hf4 & Hn4 & Hi4 & Hu4 & Ho4 & He4 & Ht4).
      { rewrite Hf3. simpl. rewrite Hf2. rewrite lookup_delete_ne by done.
        apply lookup_insert_eq. }
      exists w4, (Z.of_nat k), m, r1, r2, (w_errno w2).
      simpl in *. split_and!; try done; try congruence.
      * rewrite Hf4, Hf3, Hf2, Hf1, Hfds.
        apply map_eq. intros j.
        rewrite !lookup_delete, !lookup_insert.
        repeat case_decide; congruence.
      * rewrite Ht4, Ht3, Ht2, Ht1. by rewrite <- !app_assoc.
Qed.

Lemma copy_loop_eof (s : nat) os file fuel fd_dest buf w :
  w_fds w !! s = Some os -> o_rd os = true ->
  w_inodes w !! o_ino os = Some file ->
  (length (i_data file) <= o_pos os)%nat ->
  exists n w' os',
    copy_loop (S fuel) (Z.of_nat s) fd_dest buf w = Running n w' /\
    (n = 0 \/ n = -1) /\
    w_fds w' = <[s := os']> (w_fds w) /\
    w_inodes w' = w_inodes w /\ w_names w' = w_names w /\
    w_umask w' = w_umask w /\ w_stdout w' = w_stdout w /\
    w_stderr w' = w_stderr w /\
    w_trace w' = w_trace w ++ [EvRead (Z.of_nat s) BUFFER_SIZE n].
Proof.
  intros Hs Hrd Hfile Hlen. rewrite copy_loop_S.
  destruct (read_known s os file buf BUFFER_SIZE w)
    as (n & buf' & w1 & -> & Hn1 & Hi1 & Hu1 & Ho1 & He1 & Ht1 & Hcase);
    try done.
  destruct Hcase as [(-> & Hf1 & ->) | (k & -> & Hk1 & Hk2 & Hk0 & -> & Hf1)].
  - exists (-1), w1, os. simpl. split_and!; try done; try tauto.
    rewrite Hf1. by rewrite insert_id.
  - assert (k = 0%nat) as -> by lia.
    exists 0, w1, (advance os 0). simpl. split_and!; try done; tauto.
Qed.

Lemma main_unfold fuel prog src dst w :
  main fuel [prog; src; dst] w =
  match open src O_RDONLY 0 w with
  | Running fd_src w1 =>
      if fd_src =? -1 then
        Exited 1 (say_error "Error al abrir archivo origen" w1)
      else
        match open dst creat_flags mode_0644 w1 with
        | Running fd_dest w2 =>
            if fd_dest =? -1 then
              match close fd_src
                      (say_error "Error al crear archivo destino" w2) with
              | Running _ w3 => Exited 1 w3
              | Exited c w3 => Exited c w3
              | OutOfFuel => OutOfFuel
              end
            else
              match copy_loop fuel fd_src fd_dest buffer0 w2 with
              | Running bytes_read w3 =>
                  match close fd_src
                          (if bytes_read =? -1
                           then say_error "Error al leer" w3 else w3) with
                  | Running _ w4 =>
                      match close fd_dest w4 with
                      | Running _ w5 =>
                          Running 0 (say "Copia completada exitosamente.\n" w5)
                      | Exited c w5 => Exited c w5
                      | OutOfFuel => OutOfFuel
                      end
                  | Exited c w4 => Exited c w4
                  | OutOfFuel => OutOfFuel
                  end
              | Exited c w3 => Exited c w3
              | OutOfFuel => OutOfFuel
              end
        | Exited c w2 => Exited c w2
        | OutOfFuel => OutOfFuel
        end
  | Exited c w1 => Exited c w1
  | OutOfFuel => OutOfFuel
  end.
Proof.
  unfold main.
  change (negb (Z.of_nat (length [prog; src; dst]) =? 3)) with false.
  cbv iota zeta. unfold bind, perror, printf, exit, ret.
  change (argv_at [prog; src; dst] 1) with src.
  change (argv_at [prog; src; dst] 2) with dst.
  destruct (open src O_RDONLY 0 w) as [a w1| |]; try done.
  destruct (a =? -1); [reflexivity|].
  destruct (open dst _ mode_0644 w1) as [b w2| |]; try done.
  destruct (b =? -1); [reflexivity|].
  fold buffer0.
  destruct (copy_loop fuel a b buffer0 w2) as [n w3| |]; try done.
  destruct (n =? -1); reflexivity.
Qed.

Lemma open_total path flags mode w :
  exists r w1, open path flags mode w = Running r w1.
Proof.
  unfold open, fail_with, install. destruct (next_fault w) as [f wf].
  cbv zeta.
  destruct f; try (by eauto); destruct (resolve wf path); try (by eauto);
    destruct (negb (Z.land flags O_CREAT =? 0)); eauto.
Qed.

Lemma file_size_resolved w path ino file :
  resolve w path = Some ino -> w_inodes w !! ino = Some file ->
  file_size w path = length (i_data file).
Proof.
  intros [Hn _]%resolve_Some Hf. unfold file_size. by rewrite Hn, Hf.
Qed.

Lemma main_paths fuel prog src dst w :
  (file_size w src < fuel)%nat ->
  exists status w' tr,
    run fuel [prog; src; dst] w = Some (status, w') /\
    w_trace w' = w_trace w ++ tr /\
    w_fds w' = w_fds w /\ w_umask w' = w_umask w /\
    copy_path src dst w w' status tr.
Proof.
  intros Hfuel. unfold run. rewrite main_unfold.
  destruct (open_total src O_RDONLY 0 w) as (a & w1 & Ho1). rewrite Ho1.
  destruct (Z.eqb_spec a (-1)) as [->|Ha].
  { (* the source does not open *)
    apply open_fail in Ho1 as (Hn1 & Hi1 & Hf1 & Hu1 & Hso1 & Hse1 & Ht1).
    do 3 eexists. split; [reflexivity|]. simpl.
    split_and!; [exact Ht1|done|done|].
    apply (SourceOpenError _ _ _ _ (w_errno w1)); simpl; congruence. }
  apply open_rdonly_ok in Ho1
    as (s & isrc & -> & Hs & Hrs & Hf1 & Hn1 & Hi1 & Hu1 & Hso1 & Hse1 & Ht1);
    [|done].
  destruct (open_total dst creat_flags mode_0644 w1) as (b & w2 & Ho2).
  rewrite Ho2.
  destruct (Z.eqb_spec b (-1)) as [->|Hb].
  { (* the destination does not open *)
    apply open_fail in Ho2 as (Hn2 & Hi2 & Hf2 & Hu2 & Hso2 & Hse2 & Ht2).
    set (w2' := say_error _ w2).
    destruct (close_known s (OpenFile isrc 0 true false) w2')
      as (r & w3 & -> & Hf3 & Hn3 & Hi3 & Hu3 & Hso3 & Hse3 & Ht3).
    { simpl. rewrite Hf2, Hf1. apply lookup_insert_eq. }
    simpl in *. do 3 eexists. split; [reflexivity|].
    split_and!.
    - rewrite Ht3, Ht2, Ht1. by rewrite <- !app_assoc.
    - rewrite Hf3, Hf2, Hf1. by rewrite delete_insert_id.
    - congruence.
    - apply (DestOpenError _ _ _ _ _ _ (w_errno w2)); [lia|congruence..]. }
  apply open_creat_ok in Ho2
    as (d & idst & md & -> & Hd & Hf2 & Hn2 & Hi2 & Hcase & Hu2 & Hso2 & Hse2
        & Ht2); [|done].
  assert (Hsd : s <> d).
  { intros ->. rewrite Hf1, lookup_insert_eq in Hd. done. }
  assert (Hbd : w_fds w !! d = None).
  { rewrite Hf1, lookup_insert_ne in Hd; done. }
  pose proof Hrs as Hrs'. apply resolve_Some in Hrs' as [Hname [file Hfile]].
  assert (Hmd :
    resolve w dst = Some idst /\
      (exists old, w_inodes w !! idst = Some old /\ md = i_mode old) \/
    resolve w dst = None /\ w_inodes w !! idst = None /\
      md = Z.land mode_0644 (Z.lnot (w_umask w))).
  { assert (Hres : resolve w1 dst = resolve w dst).
    { unfold resolve. by rewrite Hn1, Hi1. }
    rewrite Hres, Hi1, Hu1 in Hcase. exact Hcase. }
  (* the loop, on one file or on two *)
  assert (Hloop :
    exists io, Forall (fun e => ok_transfer e = true) io /\
      ((exists n w3 os od copied rest,
          copy_loop fuel (Z.of_nat s) (Z.of_nat d) buffer0 w2 = Running n w3 /\
          (n = 0 \/ n = -1) /\
          (if decide (idst = isrc) then [] else i_data file) = copied ++ rest /\
          (n = 0 -> rest = []) /\
          w_fds w3 = <[s := os]> (<[d := od]> (w_fds w)) /\
          w_inodes w3 = <[idst := Inode copied md]> (w_inodes w) /\
          w_names w3 = w_names w2 /\ w_umask w3 = w_umask w2 /\
          w_stdout w3 = w_stdout w2 /\ w_stderr w3 = w_stderr w2 /\
          w_trace w3 =
            w_trace w2 ++ io ++ [EvRead (Z.of_nat s) BUFFER_SIZE n]) \/
       (exists w3 c m r1 r2 e,
          copy_loop fuel (Z.of_nat s) (Z.of_nat d) buffer0 w2 = Exited 1 w3 /\
          0 < c /\ m <> c /\ w_fds w3 = w_fds w /\
          w_names w3 = w_names w2 /\ w_umask w3 = w_umask w2 /\
          w_stdout w3 = w_stdout w2 /\
          w_stderr w3 = w_stderr w2 ++ [("Error al escribir"%string, e)] /\
          w_trace w3 =
            w_trace w2 ++ io ++
              [EvRead (Z.of_nat s) BUFFER_SIZE c; EvWrite (Z.of_nat d) c m;
               EvClose (Z.of_nat s) r1; EvClose (Z.of_nat d) r2]))).
  { destruct (decide (idst = isrc)) as [->|Hne].
    - destruct fuel as [|fuel]; [lia|].
      destruct (copy_loop_eof s (OpenFile isrc 0 true false) (Inode [] md)
                  fuel (Z.of_nat d) buffer0 w2)
        as (n & w3 & os' & -> & Hn & Hf3 & Hi3 & Hn3 & Hu3 & Hso3 & Hse3 & Ht3);
        try done.
      { rewrite Hf2, Hf1. rewrite lookup_insert_ne by done.
        apply lookup_insert_eq. }
      { simpl. rewrite Hi2. apply lookup_insert_eq. }
      exists []. split; [constructor|]. left.
      exists n, w3, os', (OpenFile isrc 0 false true), [], [].
      split_and!; try done.
      + rewrite Hf3, Hf2, Hf1. apply map_eq. intros j.
        rewrite !lookup_insert. repeat case_decide; congruence.
      + congruence.
    - destruct file as [datas ms].
      destruct (copy_loop_spec s d isrc idst (w_fds w) datas ms md
                  ltac:(done) ltac:(done) Hs Hbd fuel 0%nat [] buffer0 w2)
        as (io & Hio & Hres).
      { rewrite Hf2, Hf1. simpl. by apply insert_insert_ne. }
      { rewrite Hi2, Hi1. by rewrite lookup_insert_ne. }
      { rewrite Hi2. apply lookup_insert_eq. }
      { unfold buffer0. by rewrite length_replicate. }
      { rewrite (file_size_resolved _ _ _ _ Hrs Hfile) in Hfuel. simpl in *.
        lia. }
      exists io. split; [done|].
      destruct Hres as
        [(n & w3 & os & od & copied & rest & Hrun & Hn & Hsplit & Hrest & Hf3
          & Hi3 & Hn3 & Hu3 & Hso3 & Hse3 & Ht3) |
         (w3 & c & m & r1 & r2 & e & Hrun & Hc & Hm & Hf3 & Hn3 & Hu3 & Hso3
          & Hse3 & Ht3)].
      + left. exists n, w3, os, od, copied, rest.
        split_and!; try done.
        rewrite Hi3, Hi2, Hi1. simpl. by rewrite insert_insert_eq.
      + right. exists w3, c, m, r1, r2, e. split_and!; done. }
  destruct Hloop as (io & Hio & Hres).
  destruct Hres as
    [(n & w3 & os & od & copied & rest & -> & Hn & Hsplit & Hrest & Hf3
      & Hi3 & Hn3 & Hu3 & Hso3 & Hse3 & Ht3) |
     (w3 & c & m & r1 & r2 & e & -> & Hc & Hm & Hf3 & Hn3 & Hu3 & Hso3
      & Hse3 & Ht3)].
  - (* the loop ends: a last read of 0 or -1 *)
    set (w3' := if n =? -1 then say_error "Error al leer" w3 else w3).
    assert (Hw3' :
      w_fds w3' = w_fds w3 /\ w_names w3' = w_names w3 /\
      w_inodes w3' = w_inodes w3 /\ w_umask w3' = w_umask w3 /\
      w_stdout w3' = w_stdout w3 /\ w_trace w3' = w_trace w3 /\
      (n = 0 /\ w_stderr w3' = w_stderr w3 \/
       n = -1 /\ w_stderr w3' = w_stderr w3 ++ [("Error al leer"%string, w_errno w3)])).
    { unfold w3'. destruct Hn as [-> | ->]; simpl; tauto. }
    clearbody w3'.
    destruct Hw3' as (Hf3' & Hn3' & Hi3' & Hu3' & Hso3' & Ht3' & Hse3').
    destruct (close_known s os w3')
      as (r1 & w4 & -> & Hf4 & Hn4 & Hi4 & Hu4 & Hso4 & Hse4 & Ht4).
    { rewrite Hf3', Hf3. apply lookup_insert_eq. }
    destruct (close_known d od w4)
      as (r2 & w5 & -> & Hf5 & Hn5 & Hi5 & Hu5 & Hso5 & Hse5 & Ht5).
    { rewrite Hf4, Hf3', Hf3. rewrite lookup_delete_ne by done.
      rewrite lookup_insert_ne by done. apply lookup_insert_eq. }
    do 3 eexists. split; [reflexivity|]. simpl.
    split_and!.
    + rewrite Ht5, Ht4, Ht3', Ht3, Ht2, Ht1. rewrite <- !app_assoc.
      reflexivity.
    + rewrite Hf5, Hf4, Hf3', Hf3. apply map_eq. intros j.
      rewrite !lookup_delete, !lookup_insert. repeat case_decide; congruence.
    + congruence.
    + eapply (LoopEnd src dst w _ (Z.of_nat s) (Z.of_nat d) io n r1 r2
                isrc idst file copied rest md); simpl; try done; try lia.
      * destruct Hse3' as [[-> E]|[-> E]]; [left|right]; split; try done.
        -- congruence.
        -- eexists. rewrite Hse5, Hse4, E. f_equal. congruence.
      * congruence.
      * congruence.
      * congruence.
  - (* a write fails *)
    do 3 eexists. split; [reflexivity|]. simpl.
    split_and!.
    + rewrite Ht3, Ht2, Ht1. rewrite <- !app_assoc. reflexivity.
    + done.
    + congruence.
    + eapply WriteError; try done; try lia.
      * congruence.
      * rewrite Hse3. f_equal. congruence.
Qed.

(** ** Reading traces *)

Lemma ok_transfer_track io held rest :
  Forall (fun e => ok_transfer e = true) io ->
  track held (io ++ rest) = track held rest.
Proof.
  induction 1 as [|e io He _ IH]; [done|].
  destruct e; simpl in *; try done; exact IH.
Qed.

Lemma ok_transfer_no_failed_write io :
  Forall (fun e => ok_transfer e = true) io -> existsb failed_write io = false.
Proof.
  induction 1 as [|e io He _ IH]; [done|]. simpl. rewrite IH.
  destruct e; simpl in *; try done. by rewrite He.
Qed.

Lemma ok_transfer_no_failed_read io :
  Forall (fun e => ok_transfer e = true) io -> existsb failed_read io = false.
Proof.
  induction 1 as [|e io He _ IH]; [done|]. simpl. rewrite IH.
  destruct e as [| fd c r | |]; simpl in *; try done.
  destruct (Z.ltb_spec 0 r), (Z.ltb_spec r 0); try done; lia.
Qed.

(** The discipline is not met by a handle left open, by a second close, or
    by a second source handle. *)
Example track_leak :
  track [] [EvOpen "a" O_RDONLY 3] = Some [(3, false)].
Proof. reflexivity. Qed.

Example track_double_close :
  track [] [EvOpen "a" O_RDONLY 3; EvClose 3 0; EvClose 3 (-1)] = None.
Proof. reflexivity. Qed.

Example track_two_sources :
  track [] [EvOpen "a" O_RDONLY 3; EvOpen "b" O_RDONLY 4;
            EvClose 3 0; EvClose 4 0] = None.
Proof. reflexivity. Qed.

(** Two handles opened one after the other, used, and closed in the same
    order keep the discipline, whatever the transfers in between. *)
Lemma track_two_handles src dst a b io lasts r1 r2 :
  a <> -1 -> b <> -1 -> a <> b ->
  Forall (fun e => ok_transfer e = true) io ->
  (forall held rest, track held (lasts ++ rest) = track held rest) ->
  handle_discipline
    ([EvOpen src O_RDONLY a; EvOpen dst creat_flags b] ++ io ++
     lasts ++ [EvClose a r1; EvClose b r2]).
Proof.
  intros Ha Hb Hab Hio Hlasts. unfold handle_discipline. simpl.
  rewrite (proj2 (Z.eqb_neq a (-1))), (proj2 (Z.eqb_neq b (-1))) by done.
  change (holds_kind (is_writer O_RDONLY) []) with false.
  change (is_writer O_RDONLY) with false.
  change (is_writer creat_flags) with true. cbv iota.
  change (holds_kind true [(a, false)]) with false. cbv iota.
  rewrite ok_transfer_track by done. rewrite Hlasts.
  assert (Hba : (b =? a) = false) by lia.
  simpl. rewrite Hba, !Z.eqb_refl. simpl. by rewrite Z.eqb_refl.
Qed.

Lemma copy_path_discipline src dst w w' status tr :
  copy_path src dst w w' status tr -> handle_discipline tr.
Proof.
  destruct 1 as [e | a r e | a b io n m r1 r2 e | a b io n r1 r2].
  - reflexivity.
  - unfold handle_discipline. simpl.
    rewrite (proj2 (Z.eqb_neq a (-1))) by done. simpl.
    by rewrite Z.eqb_refl.
  - by apply (track_two_handles src dst a b io
                [EvRead a BUFFER_SIZE n; EvWrite b n m]).
  - by apply (track_two_handles src dst a b io [EvRead a BUFFER_SIZE n]).
Qed.

Lemma three_arguments (argv : list string) :
  length argv = 3%nat -> exists prog src dst, argv = [prog; src; dst].
Proof.
  destruct argv as [|prog [|src [|dst [|]]]]; try done. eauto.
Qed.

(** The usage path, as [run] sees it. *)
Lemma usage_error_run fuel (argv : list string) (w : World) :
  length argv <> 3%nat ->
  exists w',
    run fuel argv w = Some (1, w') /\
    w_trace w' = w_trace w /\ w_fds w' = w_fds w.
Proof.
  intros Hlen. unfold run, main.
  destruct (Z.eqb_spec (Z.of_nat (length argv)) 3) as [Heq|_]; [lia|].
  simpl. eexists. split; [reflexivity|]. done.
Qed.

(** ** The claims about the copier *)

(** C7. With anything but two path arguments (an argument vector that is
    not three long, the program name included) the copier prints the usage
    line and exits with status 1; it makes no system call, so the name
    space, the files and the descriptor table are as before. *)
Theorem usage_error fuel (argv : list string) (w : World) :
  length argv <> 3%nat ->
  exists w',
    main fuel argv w = Exited 1 w' /\
    w_stdout w' =
      w_stdout w ++
        [Printf "Uso correcto: %s <archivo_origen> <archivo_destino>\n"
                [ArgS (argv_at argv 0)]] /\
    w_trace w' = w_trace w /\ w_names w' = w_names w /\
    w_inodes w' = w_inodes w /\ w_fds w' = w_fds w.
Proof.
  intros Hlen. unfold main.
  destruct (Z.eqb_spec (Z.of_nat (length argv)) 3) as [Heq|_]; [lia|].
  simpl. eexists. split; [reflexivity|]. done.
Qed.

(** C3. On every path of a run (usage error, either open failing, a read
    error, a write error, the normal end) the calls made keep the handle
    discipline: each handle opened is closed once and only once, no second
    source or destination handle is opened while one is held, and the
    descriptor table ends as it began. The fuel bound only says that the
    loop is allowed one [read] more than the source has bytes. *)
Theorem handles_closed_on_every_path fuel (argv : list string) (w : World) :
  (file_size w (argv_at argv 1) < fuel)%nat ->
  exists status w' tr,
    run fuel argv w = Some (status, w') /\
    w_trace w' = w_trace w ++ tr /\
    handle_discipline tr /\
    w_fds w' = w_fds w.
Proof.
  intros Hfuel. destruct (decide (length argv = 3%nat)) as [Hlen|Hlen].
  - apply three_arguments in Hlen as (prog & src & dst & ->).
    destruct (main_paths fuel prog src dst w Hfuel)
      as (status & w' & tr & Hrun & Htr & Hfds & _ & Hpath).
    exists status, w', tr. split_and!; try done.
    by eapply copy_path_discipline.
  - destruct (usage_error_run fuel argv w Hlen) as (w' & Hrun & Htr & Hfds).
    exists 1, w', []. rewrite app_nil_r. by split_and!.
Qed.

Lemma existsb_failed_write_last io last rest :
  Forall (fun e => ok_transfer e = true) io ->
  existsb failed_write (io ++ last :: rest) =
  failed_write last || existsb failed_write rest.
Proof.
  intros Hio. rewrite existsb_app, ok_transfer_no_failed_write by done. done.
Qed.

(** C4. A run in which some write returns a count other than the one it
    was asked for (fewer bytes, or -1) ends with status 1. That write comes
    straight after the read that filled the buffer, it is the last transfer
    of the run, and only the two [close] calls follow it: nothing is read,
    written or retried afterwards, [perror] has shown "Error al escribir",
    and the descriptor table is as it was before the run. *)
Theorem write_error_is_fatal fuel prog src dst (w : World) :
  (file_size w src < fuel)%nat ->
  exists status w' tr,
    run fuel [prog; src; dst] w = Some (status, w') /\
    w_trace w' = w_trace w ++ tr /\
    (existsb failed_write tr = true ->
     status = 1 /\
     w_fds w' = w_fds w /\
     exists fd_src fd_dest io n m r1 r2 e,
       tr = [EvOpen src O_RDONLY fd_src; EvOpen dst creat_flags fd_dest] ++
            io ++
            [EvRead fd_src BUFFER_SIZE n; EvWrite fd_dest n m;
             EvClose fd_src r1; EvClose fd_dest r2] /\
       Forall (fun ev => ok_transfer ev = true) io /\
       0 < n /\ m <> n /\
       w_stderr w' = w_stderr w ++ [("Error al escribir"%string, e)]).
Proof.
  intros Hfuel.
  destruct (main_paths fuel prog src dst w Hfuel)
    as (status & w' & tr & Hrun & Htr & Hfds & _ & Hpath).
  exists status, w', tr. split_and!; try done.
  destruct Hpath.
  - by intros [=].
  - by intros [=].
  - intros _. split_and!; try done. eauto 20.
  - simpl. rewrite existsb_failed_write_last by done. by intros [=].
Qed.

(** C6. When the source cannot be opened, the copier shows "Error al abrir
    archivo origen" with the [errno] that the failed [open] left, and exits
    with status 1. That [open] is the only system call of the run: no
    destination is opened or created, and the name space, the files and the
    descriptor table are untouched. *)
Theorem source_open_error fuel prog src dst (w w1 : World) :
  open src O_RDONLY 0 w = Running (-1) w1 ->
  exists w',
    main fuel [prog; src; dst] w = Exited 1 w' /\
    w_stderr w' =
      w_stderr w ++ [("Error al abrir archivo origen"%string, w_errno w1)] /\
    w_stdout w' = w_stdout w /\
    w_trace w' = w_trace w ++ [EvOpen src O_RDONLY (-1)] /\
    w_names w' = w_names w /\ w_inodes w' = w_inodes w /\
    w_fds w' = w_fds w.
Proof.
  intros Hopen. rewrite main_unfold, Hopen. simpl.
  apply open_fail in Hopen as (Hn & Hi & Hf & Hu & Hso & Hse & Ht).
  eexists. split; [reflexivity|]. simpl. split_and!; congruence.
Qed.

(** A path without a directory entry cannot be opened for reading. *)
Lemma open_missing src mode (w : World) :
  w_names w !! src = None ->
  exists w1, open src O_RDONLY mode w = Running (-1) w1.
Proof.
  intros Hsrc. unfold open. destruct (next_fault w) as [f wf] eqn:Hnf.
  apply next_fault_frame in Hnf as (Hn & _).
  assert (Hres : resolve wf src = None).
  { unfold resolve. by rewrite Hn, Hsrc. }
  cbv zeta. rewrite Hres. destruct f; simpl; eauto.
Qed.

(** The [errno] a failed [open] leaves: the one the environment chose, or
    [ENOENT] for a path that names no file. *)
Lemma open_fail_errno path flags mode (w w1 : World) :
  open path flags mode w = Running (-1) w1 ->
  (exists e fs, w_faults w = Errno e :: fs /\ w_errno w1 = e) \/
  (resolve w path = None /\ w_errno w1 = ENOENT).
Proof.
  unfold open, next_fault.
  assert (Hinst : forall o wi, install path flags o wi <> Running (-1) w1).
  { intros o wi. destruct (install_ok path flags o wi) as (n & _ & ->).
    intros [= Hn _]. lia. }
  destruct (w_faults w) as [|[|e|k] fs] eqn:Hfs; cbv zeta iota.
  3:{ unfold fail_with. intros [= <-]. left. by exists e, fs. }
  all: intros H; right;
    try change (resolve (set_faults fs w) path) with (resolve w path) in H;
    destruct (resolve w path); [by apply Hinst in H|];
    destruct (negb (Z.land flags O_CREAT =? 0)); [by apply Hinst in H|];
    unfold fail_with in H; by injection H as [= <-].
Qed.

(** C5. When the source opens and the destination does not, the copier
    shows "Error al crear archivo destino", closes the source descriptor and
    exits with status 1. The run is the two [open] calls and that [close]:
    nothing is read or written, the files are untouched and the descriptor
    table is as it was before the run. *)
Theorem dest_open_error fuel prog src dst (w w1 w2 : World) (fd_src : Z) :
  open src O_RDONLY 0 w = Running fd_src w1 ->
  fd_src <> -1 ->
  open dst creat_flags mode_0644 w1 = Running (-1) w2 ->
  exists w' r,
    main fuel [prog; src; dst] w = Exited 1 w' /\
    w_stderr w' =
      w_stderr w ++ [("Error al crear archivo destino"%string, w_errno w2)] /\
    w_stdout w' = w_stdout w /\
    w_trace w' =
      w_trace w ++
        [EvOpen src O_RDONLY fd_src; EvOpen dst creat_flags (-1);
         EvClose fd_src r] /\
    w_names w' = w_names w /\ w_inodes w' = w_inodes w /\
    w_fds w' = w_fds w.
Proof.
  intros Ho1 Hfd Ho2. rewrite main_unfold, Ho1.
  rewrite (proj2 (Z.eqb_neq fd_src (-1))) by done. rewrite Ho2. simpl.
  apply open_rdonly_ok in Ho1
    as (s & isrc & -> & Hs & Hrs & Hf1 & Hn1 & Hi1 & Hu1 & Hso1 & Hse1 & Ht1);
    [|done].
  apply open_fail in Ho2 as (Hn2 & Hi2 & Hf2 & Hu2 & Hso2 & Hse2 & Ht2).
  set (w2' := say_error _ w2).
  destruct (close_known s (OpenFile isrc 0 true false) w2')
    as (r & w3 & -> & Hf3 & Hn3 & Hi3 & Hu3 & Hso3 & Hse3 & Ht3).
  { simpl. rewrite Hf2, Hf1. apply lookup_insert_eq. }
  simpl in *. exists w3, r. split; [reflexivity|].
  split_and!; try congruence.
  - rewrite Ht3, Ht2, Ht1. by rewrite <- !app_assoc.
  - rewrite Hf3, Hf2, Hf1. by rewrite delete_insert_id.
Qed.

(** ** The destination after a run *)

Lemma named_file (w : World) path ino file :
  w_names w !! path = Some ino -> w_inodes w !! ino = Some file ->
  contents w path = Some (i_data file) /\
  permissions w path = Some (i_mode file).
Proof.
  intros Hn Hi. unfold contents, permissions. rewrite Hn. simpl.
  rewrite Hi. done.
Qed.

Lemma unresolved_permissions (w : World) path :
  resolve w path = None -> permissions w path = None.
Proof.
  unfold resolve, permissions. destruct (w_names w !! path) as [ino|]; simpl;
    [|done].
  by destruct (w_inodes w !! ino).
Qed.

(** Clearing bits that are not set changes nothing. *)
Lemma land_lnot_disjoint (m u : Z) : Z.land u m = 0 -> Z.land m (Z.lnot u) = m.
Proof.
  intros H. apply Z.bits_inj'. intros n Hn.
  rewrite Z.land_spec, Z.lnot_spec by done.
  assert (Hbit : Z.testbit (Z.land u m) n = false) by (rewrite H; apply Z.bits_0).
  rewrite Z.land_spec in Hbit.
  destruct (Z.testbit u n), (Z.testbit m n); done.
Qed.

(** C10, as the code has it. When both paths name one file and both [open]
    calls succeed, the second one empties the file before anything is read:
    the only read returns 0 (or fails), nothing is written, the run ends
    with status 0 and the file is left empty. *)
Theorem same_file_is_emptied fuel prog src dst (w w1 w2 : World)
    (ino : nat) (fd_src fd_dest : Z) :
  resolve w src = Some ino -> resolve w dst = Some ino ->
  open src O_RDONLY 0 w = Running fd_src w1 -> fd_src <> -1 ->
  open dst creat_flags mode_0644 w1 = Running fd_dest w2 -> fd_dest <> -1 ->
  exists w' n r1 r2,
    run (S fuel) [prog; src; dst] w = Some (0, w') /\
    w_trace w' =
      w_trace w ++
        [EvOpen src O_RDONLY fd_src; EvOpen dst creat_flags fd_dest;
         EvRead fd_src BUFFER_SIZE n; EvClose fd_src r1; EvClose fd_dest r2] /\
    (n = 0 \/ n = -1) /\
    contents w' src = Some [] /\ contents w' dst = Some [] /\
    w_fds w' = w_fds w.
Proof.
  intros Hrs Hrd Ho1 Ha Ho2 Hb. unfold run. rewrite main_unfold, Ho1.
  rewrite (proj2 (Z.eqb_neq fd_src (-1))) by done. rewrite Ho2.
  rewrite (proj2 (Z.eqb_neq fd_dest (-1))) by done.
  apply open_rdonly_ok in Ho1
    as (s & isrc & -> & Hs & Hrs' & Hf1 & Hn1 & Hi1 & Hu1 & Hso1 & Hse1 & Ht1);
    [|done].
  assert (isrc = ino) as -> by congruence.
  apply open_creat_ok in Ho2
    as (d & idst & md & -> & Hd & Hf2 & Hn2 & Hi2 & Hcase & Hu2 & Hso2 & Hse2
        & Ht2); [|done].
  assert (Hres : resolve w1 dst = Some ino).
  { unfold resolve. rewrite Hn1, Hi1. exact Hrd. }
  assert (idst = ino) as ->.
  { destruct Hcase as [[Hc _]|[Hc _]]; congruence. }
  assert (Hsd : s <> d).
  { intros ->. rewrite Hf1, lookup_insert_eq in Hd. done. }
  destruct (copy_loop_eof s (OpenFile ino 0 true false) (Inode [] md)
              fuel (Z.of_nat d) buffer0 w2)
    as (n & w3 & os' & -> & Hn & Hf3 & Hi3 & Hn3 & Hu3 & Hso3 & Hse3 & Ht3);
    try done.
  { rewrite Hf2, Hf1. rewrite lookup_insert_ne by done.
    apply lookup_insert_eq. }
  { simpl. rewrite Hi2. apply lookup_insert_eq. }
  set (w3' := if n =? -1 then say_error "Error al leer" w3 else w3).
  assert (Hw3' :
    w_fds w3' = w_fds w3 /\ w_names w3' = w_names w3 /\
    w_inodes w3' = w_inodes w3 /\ w_trace w3' = w_trace w3).
  { unfold w3'. by destruct (n =? -1). }
  clearbody w3'. destruct Hw3' as (Hf3' & Hn3' & Hi3' & Ht3').
  destruct (close_known s os' w3')
    as (r1 & w4 & -> & Hf4 & Hn4 & Hi4 & Hu4 & Hso4 & Hse4 & Ht4).
  { rewrite Hf3', Hf3. apply lookup_insert_eq. }
  destruct (close_known d (OpenFile ino 0 false true) w4)
    as (r2 & w5 & -> & Hf5 & Hn5 & Hi5 & Hu5 & Hso5 & Hse5 & Ht5).
  { rewrite Hf4, Hf3', Hf3, Hf2. rewrite lookup_delete_ne by done.
    rewrite lookup_insert_ne by done. apply lookup_insert_eq. }
  exists (say "Copia completada exitosamente.\n" w5), n, r1, r2.
  apply resolve_Some in Hrs as [Hns _]. apply resolve_Some in Hrd as [Hnd _].
  assert (Hnames : w_names w5 = w_names w).
  { rewrite Hn5, Hn4, Hn3', Hn3, Hn2, Hn1. by apply insert_id. }
  assert (Hfile : w_inodes w5 !! ino = Some (Inode [] md)).
  { rewrite Hi5, Hi4, Hi3', Hi3, Hi2. apply lookup_insert_eq. }
  split_and!; try done.
  - simpl. rewrite Ht5, Ht4, Ht3', Ht3, Ht2, Ht1. by rewrite <- !app_assoc.
  - apply (named_file _ src ino (Inode [] md)); simpl; [by rewrite Hnames|done].
  - apply (named_file _ dst ino (Inode [] md)); simpl; [by rewrite Hnames|done].
  - assert (Hbd : w_fds w !! d = None).
    { rewrite Hf1, lookup_insert_ne in Hd; done. }
    simpl. rewrite Hf5, Hf4, Hf3', Hf3, Hf2, Hf1. apply map_eq. intros j.
    rewrite !lookup_delete, !lookup_insert. repeat case_decide; congruence.
Qed.

(** C8, as the code has it. After a run that ends with status 0 the
    destination path names a file whose bytes are a prefix of what the
    source held (so whatever it held before is gone). Its permission bits
    are the ones it had if it was there before the run, and [0644 & ~umask]
    if the run created it: 0644 itself when the umask clears none of those
    bits. *)
Theorem destination_permissions fuel prog src dst (w : World) :
  (file_size w src < fuel)%nat ->
  exists status w',
    run fuel [prog; src; dst] w = Some (status, w') /\
    (status = 0 ->
     permissions w' dst =
       Some (default (Z.land mode_0644 (Z.lnot (w_umask w)))
                     (permissions w dst)) /\
     (permissions w dst = None -> Z.land (w_umask w) mode_0644 = 0 ->
      permissions w' dst = Some mode_0644) /\
     exists copied datas,
       contents w' dst = Some copied /\
       contents w src = Some datas /\
       copied `prefix_of` datas).
Proof.
  intros Hfuel.
  destruct (main_paths fuel prog src dst w Hfuel)
    as (status & w' & tr & Hrun & Htr & Hfds & Hu & Hpath).
  exists status, w'. split; [done|].
  destruct Hpath as [e | a r e | a b io n m r1 r2 e
                     | a b io n r1 r2 isrc idst file copied rest md
                         Ha Hb Hab Hio Hn Hso Hrs Hfile Hnames Hinodes Hmd
                         Hsplit Hrest]; try (by intros [=]).
  intros _.
  destruct (named_file w' dst idst (Inode copied md)) as [Hc Hp].
  { rewrite Hnames. apply lookup_insert_eq. }
  { rewrite Hinodes. apply lookup_insert_eq. }
  simpl in Hc, Hp.
  assert (Hperm : permissions w' dst =
            Some (default (Z.land mode_0644 (Z.lnot (w_umask w)))
                          (permissions w dst))).
  { rewrite Hp. f_equal.
    destruct Hmd as [[Hrd (old & Hold & ->)] | (Hrd & _ & ->)].
    - apply resolve_Some in Hrd as [Hnd _].
      destruct (named_file w dst idst old Hnd Hold) as [_ ->]. done.
    - by rewrite (unresolved_permissions _ _ Hrd). }
  split_and!.
  - exact Hperm.
  - intros Hnone Hmask. rewrite Hperm, Hnone. simpl.
    by rewrite land_lnot_disjoint.
  - exists copied, (i_data file). split_and!; [done| |].
    + apply resolve_Some in Hrs as [Hns _].
      by destruct (named_file w src isrc file Hns Hfile) as [-> _].
    + destruct (decide (idst = isrc)).
      * symmetry in Hsplit. apply app_eq_nil in Hsplit as [-> _].
        apply prefix_nil.
      * exists rest. done.
Qed.

(** X5. The copy is faithful when no read fails: after a run that ends with
    status 0 and in which every [read] succeeded, source and destination
    hold the same bytes, and these are the bytes the source had before when
    the two paths name different files. *)
Theorem copy_roundtrip fuel prog src dst (w : World) :
  (file_size w src < fuel)%nat ->
  exists status w' tr,
    run fuel [prog; src; dst] w = Some (status, w') /\
    w_trace w' = w_trace w ++ tr /\
    (status = 0 -> existsb failed_read tr = false ->
     contents w' dst = contents w' src /\
     (resolve w dst <> resolve w src -> contents w' src = contents w src)).
Proof.
  intros Hfuel.
  destruct (main_paths fuel prog src dst w Hfuel)
    as (status & w' & tr & Hrun & Htr & Hfds & Hu & Hpath).
  exists status, w', tr. split_and!; try done.
  destruct Hpath as [e | a r e | a b io n m r1 r2 e
                     | a b io n r1 r2 isrc idst file copied rest md
                         Ha Hb Hab Hio Hn Hso Hrs Hfile Hnames Hinodes Hmd
                         Hsplit Hrest]; try (by intros [=]).
  intros _ Hreads. simpl in Hreads.
  rewrite existsb_app, ok_transfer_no_failed_read in Hreads by done.
  simpl in Hreads. rewrite orb_false_r in Hreads.
  destruct Hn as [[-> Hse]|[-> _]]; [|done].
  rewrite (Hrest eq_refl), app_nil_r in Hsplit. subst copied.
  pose proof Hrs as [Hns _]%resolve_Some.
  destruct (named_file w src isrc file Hns Hfile) as [Hcs _].
  destruct (named_file w' dst idst
              (Inode (if decide (idst = isrc) then [] else i_data file) md))
    as [Hcd _].
  { rewrite Hnames. apply lookup_insert_eq. }
  { rewrite Hinodes. apply lookup_insert_eq. }
  simpl in Hcd.
  assert (Hsrc' :
    contents w' src = Some (if decide (idst = isrc) then [] else i_data file)).
  { destruct (decide (src = dst)) as [->|Hne]; [done|].
    destruct (decide (idst = isrc)) as [->|Hino].
    - apply (named_file w' src isrc (Inode [] md)).
      + rewrite Hnames. by rewrite lookup_insert_ne.
      + rewrite Hinodes. apply lookup_insert_eq.
    - apply (named_file w' src isrc file).
      + rewrite Hnames. by rewrite lookup_insert_ne.
      + rewrite Hinodes. by rewrite lookup_insert_ne. }
  split; [congruence|].
  intros Hdiff. rewrite Hsrc', Hcs.
  destruct (decide (idst = isrc)) as [->|Hino]; [|done].
  exfalso. destruct Hmd as [[Hrd _] | (_ & Hnone & _)]; congruence.
Qed.

(** X6. A read error never changes the exit status: whenever some [read] of a
    run returns a negative value, the run goes on to close both descriptors
    and ends with status 0, after "Error al leer" and the success line. *)
Lemma read_error_status fuel prog src dst (w : World) :
  (file_size w src < fuel)%nat ->
  exists status w' tr,
    run fuel [prog; src; dst] w = Some (status, w') /\
    w_trace w' = w_trace w ++ tr /\
    (existsb failed_read tr = true ->
     status = 0 /\
     (exists e, w_stderr w' = w_stderr w ++ [("Error al leer"%string, e)]) /\
     w_stdout w' =
       w_stdout w ++ [Printf "Copia completada exitosamente.\n" []]).
Proof.
  intros Hfuel.
  destruct (main_paths fuel prog src dst w Hfuel)
    as (status & w' & tr & Hrun & Htr & Hfds & Hu & Hpath).
  exists status, w', tr. split_and!; try done.
  destruct Hpath as [e | a r e | a b io n m r1 r2 e Ha Hb Hab Hio Hpos
                     | a b io n r1 r2 isrc idst file copied rest md
                         Ha Hb Hab Hio Hn Hso]; try (by intros [=]).
  - simpl. rewrite existsb_app, ok_transfer_no_failed_read by done. simpl.
    destruct (Z.ltb_spec n 0); [lia|]. by intros [=].
  - simpl. rewrite existsb_app, ok_transfer_no_failed_read by done. simpl.
    destruct Hn as [[-> _]|[-> He]]; [by intros [=]|]. done.
Qed.

(** ** Runs on concrete worlds *)

Import Scenario.

(** The scenario of the specification: 2500 bytes go through the 1024-byte
    buffer in three reads, the fourth read meets the end of the file; the
    copy has the same 2500 bytes and, being new, mode 0644 under umask 022. *)
Example copy_2500_bytes :
  let r := run 2501 ["files"; "origen.bin"; "copia.bin"]%string (world []) in
  report r =
    Some (0, [Printf "Copia completada exitosamente.\n" []], [],
          [EvOpen "origen.bin" 0 3; EvOpen "copia.bin" 577 4;
           EvRead 3 1024 1024; EvWrite 4 1024 1024;
           EvRead 3 1024 1024; EvWrite 4 1024 1024;
           EvRead 3 1024 452; EvWrite 4 452 452;
           EvRead 3 1024 0; EvClose 3 0; EvClose 4 0]) /\
  contents_after r "copia.bin" = Some (pattern 2500) /\
  contents_after r "origen.bin" = Some (pattern 2500) /\
  permissions_after r "copia.bin" = Some mode_0644.
Proof. vm_compute. repeat split. Qed.

(** An empty source gives an empty copy and status 0. *)
Example copy_empty_file :
  let r := run 1 ["files"; "vacio"; "copia.bin"]%string (world []) in
  report r =
    Some (0, [Printf "Copia completada exitosamente.\n" []], [],
          [EvOpen "vacio" 0 3; EvOpen "copia.bin" 577 4;
           EvRead 3 1024 0; EvClose 3 0; EvClose 4 0]) /\
  contents_after r "copia.bin" = Some [].
Proof. vm_compute. repeat split. Qed.

(** C1: the code at a read error. The first [read] fails with [EIO]. The
    copier shows "Error al leer" and closes both descriptors, but then
    prints the success line and returns 0 instead of exiting with 1. *)
Theorem read_error_exits_zero :
  report (run 6 ["files"; "viejo.txt"; "copia.bin"]%string
            (world [NoFault; NoFault; Errno EIO])) =
    Some (0, [Printf "Copia completada exitosamente.\n" []],
          [("Error al leer"%string, EIO)],
          [EvOpen "viejo.txt" 0 3; EvOpen "copia.bin" 577 4;
           EvRead 3 1024 (-1); EvClose 3 0; EvClose 4 0]).
Proof. vm_compute. reflexivity. Qed.

(** C2: the code at a read error in the middle of a file. The second
    [read] of a 2500-byte source fails; the run still ends with status 0,
    and the destination holds only the first 1024 bytes. *)
Theorem truncated_copy_exits_zero :
  let r := run 2501 ["files"; "origen.bin"; "copia.bin"]%string
             (world [NoFault; NoFault; NoFault; NoFault; Errno EIO]) in
  fst <$> r = Some 0 /\
  contents_after r "origen.bin" = Some (pattern 2500) /\
  contents_after r "copia.bin" = Some (take 1024 (pattern 2500)) /\
  length <$> contents_after r "copia.bin" = Some 1024%nat.
Proof. vm_compute. repeat split. Qed.

(** C8 does not hold as stated: a destination that exists keeps its
    permission bits. [viejo.txt] has mode 0600 before and after a run that
    ends with status 0. *)
Lemma existing_destination_keeps_mode :
  ~ (forall fuel argv (w w' : World),
       run fuel argv w = Some (0, w') ->
       permissions w' (argv_at argv 2) = Some mode_0644).
Proof.
  intros H.
  pose (argv := ["files"; "vacio"; "viejo.txt"]%string).
  assert (Hst : fst <$> run 1 argv (world []) = Some 0)
    by (vm_compute; reflexivity).
  assert (Hp : permissions_after (run 1 argv (world [])) "viejo.txt" = Some 384)
    by (vm_compute; reflexivity).
  destruct (run 1 argv (world [])) as [[status w']|] eqn:Hrun; [|done].
  injection Hst as [= ->]. simpl in Hp.
  apply H in Hrun. change (argv_at argv 2) with "viejo.txt"%string in Hrun.
  rewrite Hp in Hrun. vm_compute in Hrun. done.
Qed.

(** C10 does not hold as stated: when the file is opened for reading but
    not for writing (here the second [open] fails with [EACCES]), the run
    ends with status 1 and the file keeps its bytes. *)
Lemma same_file_kept_when_open_fails :
  ~ (forall fuel prog src dst (w : World) ino,
       resolve w src = Some ino -> resolve w dst = Some ino ->
       exists w',
         run (S fuel) [prog; src; dst] w = Some (0, w') /\
         contents w' dst = Some []).
Proof.
  intros H.
  pose (w := world [NoFault; Errno EACCES]).
  assert (Hr : resolve w "viejo.txt" = Some 2%nat) by (vm_compute; reflexivity).
  assert (Hst : fst <$> run 1 ["files"; "viejo.txt"; "viejo.txt"]%string w
                = Some 1) by (vm_compute; reflexivity).
  destruct (H 0%nat "files"%string "viejo.txt"%string "viejo.txt"%string
              w 2%nat Hr Hr) as (w' & Hrun & _).
  rewrite Hrun in Hst. done.
Qed.

(** What the run of the last lemma leaves: status 1, the diagnostic of the
    failed [open], and the five bytes of the file in place. *)
Example same_file_read_only :
  let r := run 1 ["files"; "viejo.txt"; "viejo.txt"]%string
             (world [NoFault; Errno EACCES]) in
  report r =
    Some (1, [], [("Error al crear archivo destino"%string, EACCES)],
          [EvOpen "viejo.txt" 0 3; EvOpen "viejo.txt" 577 (-1); EvClose 3 0]) /\
  contents_after r "viejo.txt" = Some (pattern 5).
Proof. vm_compute. repeat split. Qed.

(** A destination created under umask 077 gets mode 0600, not 0644. *)
Example created_under_umask_077 :
  let w := set_umask 63 (world []) in
  let r := run 1 ["files"; "vacio"; "copia.bin"]%string w in
  fst <$> r = Some 0 /\ permissions_after r "copia.bin" = Some 384.
Proof. vm_compute. repeat split. Qed.

(** A partial write: the first [write] takes 2 of the 5 bytes. The run
    stops there with status 1; [errno] was not set by the short write, so
    [perror] shows the stale value 0. *)
Example partial_write_run :
  report (run 6 ["files"; "viejo.txt"; "copia.bin"]%string
            (world [NoFault; NoFault; NoFault; Short 2])) =
    Some (1, [], [("Error al escribir"%string, 0)],
          [EvOpen "viejo.txt" 0 3; EvOpen "copia.bin" 577 4;
           EvRead 3 1024 5; EvWrite 4 5 2; EvClose 3 0; EvClose 4 0]).
Proof. vm_compute. reflexivity. Qed.

(** ** The system call *)

Lemma to_int_small (z : Z) :
  Mycall.INT_MIN <= z <= Mycall.INT_MAX -> Mycall.to_int z = z.
Proof.
  unfold Mycall.INT_MIN, Mycall.INT_MAX, Mycall.to_int. intros Hz.
  rewrite Z.mod_small; lia.
Qed.

(** C9. For an [int] argument [i] (so [INT_MIN <= i]) with
    [i <= INT_MAX - 10], the handler of [mycall] returns [i + 10] and adds
    one line with [i] to the kernel log. So the test program, which calls
    system call 470 with 50, gets 60 back, prints it and takes the "Funko el
    kernel" branch, and returns 0. *)
Theorem mycall_adds_ten :
  (forall (i : Z) (klog : list Mycall.klog_entry),
     Mycall.INT_MIN <= i -> i <= Mycall.INT_MAX - 10 ->
     Mycall.sys_mycall i klog =
       (i + 10,
        klog ++ [Mycall.Printk "KERN_INFO"
                   "Hola desde el PapuKernel!! Recibi: %d\n" i])) /\
  (forall u : Mycall.User,
     Mycall.syscall Mycall.__NR_mycall 50 u =
       (60,
        Mycall.mkUser
          (Mycall.u_klog u ++
             [Mycall.Printk "KERN_INFO"
                "Hola desde el PapuKernel!! Recibi: %d\n" 50])
          (Mycall.u_errno u) (Mycall.u_stdout u)) /\
     Mycall.main u =
       (0,
        Mycall.mkUser
          (Mycall.u_klog u ++
             [Mycall.Printk "KERN_INFO"
                "Hola desde el PapuKernel!! Recibi: %d\n" 50])
          (Mycall.u_errno u)
          (Mycall.u_stdout u ++
             [Printf "--- Iniciando prueba de Syscall ---\n" [];
              Printf "Resultado devuelto por el kernel: %ld\n" [ArgZ 60];
              Printf "Funko el kernel\n" []]))).
Proof.
  split.
  - intros i klog Hlo Hhi. unfold Mycall.sys_mycall.
    rewrite to_int_small; [done|].
    unfold Mycall.INT_MIN, Mycall.INT_MAX in *. lia.
  - intros u. split; [reflexivity|].
    unfold Mycall.main, Mycall.uprintf. simpl.
    by rewrite <- !app_assoc.
Qed.

(** Past that bound the [int] sum wraps round. *)
Example mycall_wraps :
  fst (Mycall.sys_mycall Mycall.INT_MAX []) = Mycall.INT_MIN + 9.
Proof. reflexivity. Qed.

(** ** The theorems at concrete inputs *)

Lemma mycall_adds_ten_witness :
  Mycall.sys_mycall 50 [] =
    (60, [Mycall.Printk "KERN_INFO"
            "Hola desde el PapuKernel!! Recibi: %d\n" 50]).
Proof.
  apply (proj1 mycall_adds_ten 50 []).
  - unfold Mycall.INT_MIN. lia.
  - unfold Mycall.INT_MAX. lia.
Defined.

Lemma usage_error_witness :
  length ["files"; "solo"]%string <> 3%nat /\
  exists w',
    main 1 ["files"; "solo"]%string (world []) = Exited 1 w' /\
    w_trace w' = [] /\ w_names w' = w_names (world []) /\
    w_inodes w' = w_inodes (world []).
Proof.
  split; [simpl; lia|].
  destruct (usage_error 1 ["files"; "solo"]%string (world []))
    as (w' & Hmain & _ & Htr & Hn & Hi & _); [simpl; lia|].
  exists w'. split_and!; assumption.
Defined.

Lemma handles_closed_on_every_path_witness :
  (file_size (world [NoFault; NoFault; Short 3]) "viejo.txt" < 6)%nat /\
  exists status w' tr,
    run 6 ["files"; "viejo.txt"; "copia.bin"]%string
        (world [NoFault; NoFault; Short 3]) = Some (status, w') /\
    w_trace w' = w_trace (world [NoFault; NoFault; Short 3]) ++ tr /\
    handle_discipline tr /\
    w_fds w' = w_fds (world [NoFault; NoFault; Short 3]).
Proof.
  assert (H : (file_size (world [NoFault; NoFault; Short 3]) "viejo.txt" < 6)%nat)
    by (vm_compute; lia).
  split; [exact H|].
  exact (handles_closed_on_every_path 6 ["files"; "viejo.txt"; "copia.bin"]%string
           (world [NoFault; NoFault; Short 3]) H).
Defined.

Lemma write_error_is_fatal_witness :
  let w := world [NoFault; NoFault; NoFault; Short 2] in
  (file_size w "viejo.txt" < 6)%nat /\
  exists w' tr,
    run 6 ["files"; "viejo.txt"; "copia.bin"]%string w = Some (1, w') /\
    w_trace w' = tr /\ existsb failed_write tr = true /\
    w_fds w' = w_fds w.
Proof.
  intros w.
  assert (H : (file_size w "viejo.txt" < 6)%nat) by (vm_compute; lia).
  split; [exact H|].
  destruct (write_error_is_fatal 6 "files" "viejo.txt" "copia.bin" w H)
    as (status & w' & tr & Hrun & Htr & Himp).
  change (w_trace w) with (@nil event) in Htr. simpl in Htr.
  assert (Hobs :
    (fun r => existsb failed_write (w_trace r.2)) <$>
      run 6 ["files"; "viejo.txt"; "copia.bin"]%string w = Some true)
    by (vm_compute; reflexivity).
  rewrite Hrun in Hobs. simpl in Hobs. injection Hobs as Hobs.
  rewrite Htr in Hobs.
  destruct (Himp Hobs) as (-> & Hfds & _).
  exists w', tr. split_and!; assumption.
Defined.

Lemma source_open_error_witness :
  exists w1 w',
    open "no_existe" O_RDONLY 0 (world []) = Running (-1) w1 /\
    main 1 ["files"; "no_existe"; "copia.bin"]%string (world []) = Exited 1 w' /\
    w_trace w' = [EvOpen "no_existe" O_RDONLY (-1)] /\
    w_names w' = w_names (world []) /\ w_inodes w' = w_inodes (world []).
Proof.
  destruct (open_missing "no_existe" 0 (world [])) as [w1 Hopen];
    [vm_compute; reflexivity|].
  destruct (source_open_error 1 "files" "no_existe" "copia.bin" (world []) w1
              Hopen) as (w' & Hmain & _ & _ & Htr & Hn & Hi & _).
  exists w1, w'. split_and!; assumption.
Defined.

Lemma dest_open_error_witness :
  let w := world [NoFault; Errno EACCES] in
  exists w',
    main 1 ["files"; "viejo.txt"; "copia.bin"]%string w = Exited 1 w' /\
    w_names w' = w_names w /\ w_inodes w' = w_inodes w /\
    w_fds w' = w_fds w.
Proof.
  intros w.
  destruct (open_total "viejo.txt" O_RDONLY 0 w) as (a & w1 & Ho1).
  assert (Ha : a = 3).
  { assert (E : match open "viejo.txt" O_RDONLY 0 w with
                | Running r _ => r | _ => 0 end = 3)
      by (vm_compute; reflexivity).
    rewrite Ho1 in E. exact E. }
  destruct (open_total "copia.bin" creat_flags mode_0644 w1) as (b & w2 & Ho2).
  assert (Hb : b = -1).
  { assert (E : match open "viejo.txt" O_RDONLY 0 w with
                | Running _ w1 =>
                    match open "copia.bin" creat_flags mode_0644 w1 with
                    | Running r _ => r | _ => 0 end
                | _ => 0 end = -1)
      by (vm_compute; reflexivity).
    rewrite Ho1, Ho2 in E. exact E. }
  subst a b.
  destruct (dest_open_error 1 "files" "viejo.txt" "copia.bin" w w1 w2 3
              Ho1 ltac:(lia) Ho2)
    as (w' & r & Hmain & _ & _ & _ & Hn & Hi & Hf).
  exists w'. split_and!; assumption.
Defined.

Lemma same_file_is_emptied_witness :
  let w := world [] in
  resolve w "viejo.txt" = Some 2%nat /\
  exists w',
    run 1 ["files"; "viejo.txt"; "viejo.txt"]%string w = Some (0, w') /\
    contents w' "viejo.txt" = Some [] /\ w_fds w' = w_fds w.
Proof.
  intros w.
  assert (Hr : resolve w "viejo.txt" = Some 2%nat) by (vm_compute; reflexivity).
  split; [exact Hr|].
  destruct (open_total "viejo.txt" O_RDONLY 0 w) as (a & w1 & Ho1).
  assert (Ha : a = 3).
  { assert (E : match open "viejo.txt" O_RDONLY 0 w with
                | Running r _ => r | _ => 0 end = 3)
      by (vm_compute; reflexivity).
    rewrite Ho1 in E. exact E. }
  destruct (open_total "viejo.txt" creat_flags mode_0644 w1) as (b & w2 & Ho2).
  assert (Hb : b = 4).
  { assert (E : match open "viejo.txt" O_RDONLY 0 w with
                | Running _ w1 =>
                    match open "viejo.txt" creat_flags mode_0644 w1 with
                    | Running r _ => r | _ => 0 end
                | _ => 0 end = 4)
      by (vm_compute; reflexivity).
    rewrite Ho1, Ho2 in E. exact E. }
  subst a b.
  destruct (same_file_is_emptied 0 "files" "viejo.txt" "viejo.txt" w w1 w2
              2 3 4 Hr Hr Ho1 ltac:(lia) Ho2 ltac:(lia))
    as (w' & n & r1 & r2 & Hrun & _ & _ & _ & Hc & Hf).
  exists w'. split_and!; assumption.
Defined.

Lemma destination_permissions_witness :
  (file_size (world []) "vacio" < 1)%nat /\
  exists status w',
    run 1 ["files"; "vacio"; "viejo.txt"]%string (world []) = Some (status, w') /\
    (status = 0 ->
     permissions w' "viejo.txt" =
       Some (default (Z.land mode_0644 (Z.lnot (w_umask (world []))))
                     (permissions (world []) "viejo.txt"))).
Proof.
  assert (H : (file_size (world []) "vacio" < 1)%nat) by (vm_compute; lia).
  split; [exact H|].
  destruct (destination_permissions 1 "files" "vacio" "viejo.txt" (world []) H)
    as (status & w' & Hrun & Himp).
  exists status, w'. split; [exact Hrun|].
  intros Hst. exact (proj1 (Himp Hst)).
Defined.

(** ** What the system calls leave alone *)

(** Moving the offset of one descriptor changes no descriptor's file. *)
Lemma lookup_fd_advanced (w w' : World) (fd : Z) o (pos : nat) :
  lookup_fd w fd = Some o ->
  w_fds w' = <[Z.to_nat fd := OpenFile (o_ino o) pos (o_rd o) (o_wr o)]> (w_fds w) ->
  forall fd' o', lookup_fd w' fd' = Some o' ->
    exists o0, lookup_fd w fd' = Some o0 /\ o_ino o' = o_ino o0.
Proof.
  intros Hfd Hfds fd' o'. unfold lookup_fd in *. rewrite Hfds.
  destruct (fd <? 0); [done|]. destruct (fd' <? 0); [done|].
  destruct (decide (Z.to_nat fd = Z.to_nat fd')) as [<-|Hne].
  - rewrite lookup_insert_eq. intros [= <-]. by exists o.
  - rewrite lookup_insert_ne by done. intros Ho'. by exists o'.
Qed.

Lemma transfer_limit_le f count : (transfer_limit f count <= Z.to_nat count)%nat.
Proof. destruct f; simpl; lia. Qed.

Lemma read_frame fd buf count (w : World) :
  exists n buf' w',
    read fd buf count w = Running (n, buf') w' /\
    w_names w' = w_names w /\ w_inodes w' = w_inodes w /\
    w_trace w' = w_trace w ++ [EvRead fd count n] /\
    -1 <= n /\ (0 <= count -> n <= count) /\
    (forall fd' o', lookup_fd w' fd' = Some o' ->
       exists o, lookup_fd w fd' = Some o /\ o_ino o' = o_ino o).
Proof.
  unfold read. destruct (next_fault w) as [f wf] eqn:Hnf.
  pose proof (next_fault_frame _ _ _ Hnf) as (Hn & Hi & _ & Hf & _ & _ & _ & Ht).
  assert (Hlk : forall fd', lookup_fd wf fd' = lookup_fd w fd').
  { intros fd'. unfold lookup_fd. by rewrite Hf. }
  assert (Hfail : forall e,
    exists n buf' w',
      fail_with e (EvRead fd count) (fun r => (r, buf)) wf
        = Running (n, buf') w' /\
      w_names w' = w_names w /\ w_inodes w' = w_inodes w /\
      w_trace w' = w_trace w ++ [EvRead fd count n] /\
      -1 <= n /\ (0 <= count -> n <= count) /\
      (forall fd' o', lookup_fd w' fd' = Some o' ->
         exists o, lookup_fd w fd' = Some o /\ o_ino o' = o_ino o)).
  { intros e. do 3 eexists. split; [reflexivity|]. simpl.
    split_and!; try congruence; try lia.
    intros fd' o' Ho'. exists o'. split; [|done]. rewrite <- Hlk. exact Ho'. }
  cbv zeta.
  destruct f as [|e|k]; [|apply Hfail|];
    (destruct (lookup_fd wf fd) as [o|] eqn:Hfd; [|apply Hfail]);
    (destruct (w_inodes wf !! o_ino o) as [file|]; [|apply Hfail]);
    (destruct (o_rd o) eqn:Hrd; [|apply Hfail]);
    rewrite Hlk in Hfd;
    (do 3 eexists; split; [reflexivity|]); simpl;
    (split_and!; try congruence; try lia;
     [ intros Hc; rewrite length_take; lia
     | eapply (lookup_fd_advanced w _ fd o); [exact Hfd|];
       simpl; rewrite Hf, Hrd; reflexivity ]).
Qed.

Lemma write_frame fd buf count (w : World) :
  exists m w',
    write fd buf count w = Running m w' /\
    w_names w' = w_names w /\
    w_trace w' = w_trace w ++ [EvWrite fd count m] /\
    -1 <= m /\ (0 <= count -> m <= count) /\
    (forall i, (forall o, lookup_fd w fd = Some o -> o_ino o <> i) ->
       w_inodes w' !! i = w_inodes w !! i) /\
    (forall fd' o', lookup_fd w' fd' = Some o' ->
       exists o, lookup_fd w fd' = Some o /\ o_ino o' = o_ino o).
Proof.
  unfold write. destruct (next_fault w) as [f wf] eqn:Hnf.
  pose proof (next_fault_frame _ _ _ Hnf) as (Hn & Hi & _ & Hf & _ & _ & _ & Ht).
  assert (Hlk : forall fd', lookup_fd wf fd' = lookup_fd w fd').
  { intros fd'. unfold lookup_fd. by rewrite Hf. }
  assert (Hfail : forall e,
    exists m w',
      fail_with e (EvWrite fd count) id wf = Running m w' /\
      w_names w' = w_names w /\
      w_trace w' = w_trace w ++ [EvWrite fd count m] /\
      -1 <= m /\ (0 <= count -> m <= count) /\
      (forall i, (forall o, lookup_fd w fd = Some o -> o_ino o <> i) ->
         w_inodes w' !! i = w_inodes w !! i) /\
      (forall fd' o', lookup_fd w' fd' = Some o' ->
         exists o, lookup_fd w fd' = Some o /\ o_ino o' = o_ino o)).
  { intros e. do 2 eexists. split; [reflexivity|]. simpl.
    split_and!; try congruence; try (unfold id; lia).
    intros fd' o' Ho'. exists o'. split; [|done]. rewrite <- Hlk. exact Ho'. }
  cbv zeta.
  destruct f as [|e|k]; [|apply Hfail|];
    (destruct (lookup_fd wf fd) as [o|] eqn:Hfd; [|apply Hfail]);
    (destruct (w_inodes wf !! o_ino o) as [file|]; [|apply Hfail]);
    (destruct (o_wr o) eqn:Hwr; [|apply Hfail]);
    rewrite Hlk in Hfd;
    (do 2 eexists; split; [reflexivity|]); simpl;
    (split_and!; try congruence; try lia;
     [ intros Hc; rewrite length_take; lia
     | intros i Hi'; rewrite lookup_insert_ne by (by apply Hi');
       by rewrite Hi
     | eapply (lookup_fd_advanced w _ fd o); [exact Hfd|];
       simpl; rewrite Hf, Hwr; reflexivity ]).
Qed.

Lemma close_frame fd (w : World) :
  exists r w',
    close fd w = Running r w' /\
    w_names w' = w_names w /\ w_inodes w' = w_inodes w /\
    w_trace w' = w_trace w ++ [EvClose fd r] /\
    (forall fd' o', lookup_fd w' fd' = Some o' -> lookup_fd w fd' = Some o').
Proof.
  unfold close. destruct (next_fault w) as [f wf] eqn:Hnf.
  pose proof (next_fault_frame _ _ _ Hnf) as (Hn & Hi & _ & Hf & _ & _ & _ & Ht).
  assert (Hlk : forall fd', lookup_fd wf fd' = lookup_fd w fd').
  { intros fd'. unfold lookup_fd. by rewrite Hf. }
  assert (Hdel : forall fd' o',
    (if fd' <? 0 then None else delete (Z.to_nat fd) (w_fds wf) !! Z.to_nat fd')
      = Some o' -> lookup_fd w fd' = Some o').
  { intros fd' o'. unfold lookup_fd. rewrite Hf. destruct (fd' <? 0); [done|].
    rewrite lookup_delete. case_decide; [done|]. done. }
  destruct (lookup_fd wf fd) as [o|];
    [destruct f|]; do 2 eexists; (split; [reflexivity|]); simpl;
    split_and!; try congruence; try exact Hdel.
  intros fd' o'. by rewrite <- Hlk.
Qed.

Lemma within_buffer_read fd n :
  -1 <= n -> n <= BUFFER_SIZE -> within_buffer (EvRead fd BUFFER_SIZE n) = true.
Proof.
  intros H1 H2. unfold within_buffer.
  rewrite Z.eqb_refl, (proj2 (Z.leb_le (-1) n)), (proj2 (Z.leb_le n BUFFER_SIZE));
    done.
Qed.

Lemma within_buffer_write fd n m :
  0 < n -> n <= BUFFER_SIZE -> -1 <= m -> m <= n ->
  within_buffer (EvWrite fd n m) = true.
Proof.
  intros H1 H2 H3 H4. unfold within_buffer.
  rewrite (proj2 (Z.ltb_lt 0 n)), (proj2 (Z.leb_le n BUFFER_SIZE)),
    (proj2 (Z.leb_le (-1) m)), (proj2 (Z.leb_le m n)); done.
Qed.

(** The loop in any world: it renames nothing, it changes no file other
    than the one behind [fd_dest], and its transfers stay inside the
    buffer. *)
Lemma copy_loop_frame (i : nat) fuel fd_src fd_dest :
  forall buf (w : World),
    match copy_loop fuel fd_src fd_dest buf w with
    | OutOfFuel => True
    | Running _ w' | Exited _ w' =>
        w_names w' = w_names w /\
        ((forall o, lookup_fd w fd_dest = Some o -> o_ino o <> i) ->
         w_inodes w' !! i = w_inodes w !! i) /\
        exists tr,
          w_trace w' = w_trace w ++ tr /\
          Forall (fun e => within_buffer e = true) tr
    end.
Proof.
  induction fuel as [|fuel IH]; intros buf w; [done|].
  rewrite copy_loop_S.
  destruct (read_frame fd_src buf BUFFER_SIZE w)
    as (n & buf' & w1 & -> & Hn1 & Hi1 & Ht1 & Hlo1 & Hhi1 & Hfd1).
  specialize (Hhi1 ltac:(done)).
  assert (Hkeep1 : forall o',
    (forall o, lookup_fd w fd_dest = Some o -> o_ino o <> i) ->
    lookup_fd w1 fd_dest = Some o' -> o_ino o' <> i).
  { intros o' HJ Ho'. destruct (Hfd1 _ _ Ho') as (o & Ho & ->). by apply HJ. }
  destruct (Z.gtb_spec n 0) as [Hpos|Hnpos].
  2:{ split_and!; [done|by rewrite Hi1|].
      exists [EvRead fd_src BUFFER_SIZE n]. split; [done|].
      repeat constructor. by apply within_buffer_read. }
  destruct (write_frame fd_dest buf' n w1)
    as (m & w2 & -> & Hn2 & Ht2 & Hlo2 & Hhi2 & Hi2 & Hfd2).
  specialize (Hhi2 ltac:(lia)).
  assert (Hpair :
    Forall (fun e => within_buffer e = true)
      [EvRead fd_src BUFFER_SIZE n; EvWrite fd_dest n m]).
  { repeat constructor;
      [by apply within_buffer_read|by apply within_buffer_write]. }
  destruct (negb (m =? n)).
  - set (w2' := set_stderr _ w2).
    destruct (close_frame fd_src w2')
      as (r1 & w3 & -> & Hn3 & Hi3 & Ht3 & _).
    destruct (close_frame fd_dest w3)
      as (r2 & w4 & -> & Hn4 & Hi4 & Ht4 & _).
    simpl in *. split_and!.
    + congruence.
    + intros HJ. rewrite Hi4, Hi3, <- Hi1. apply Hi2.
      intros o Ho. by apply Hkeep1.
    + exists [EvRead fd_src BUFFER_SIZE n; EvWrite fd_dest n m;
              EvClose fd_src r1; EvClose fd_dest r2].
      split.
      * rewrite Ht4, Ht3, Ht2, Ht1. by rewrite <- !app_assoc.
      * apply (Forall_app_2 _ [_; _] [_; _]); [done|]. by repeat constructor.
  - specialize (IH buf' w2).
    destruct (copy_loop fuel fd_src fd_dest buf' w2) as [n' w'|c w'|];
      [| |done];
      destruct IH as (Hn' & Hi' & tr & Ht' & Htr);
      (split_and!;
       [ congruence
       | intros HJ; rewrite Hi', <- Hi1;
         [ apply Hi2; intros o Ho; by apply Hkeep1
         | intros o' Ho'; destruct (Hfd2 _ _ Ho') as (o & Ho & ->);
           by apply (Hkeep1 o) ]
       | exists ([EvRead fd_src BUFFER_SIZE n; EvWrite fd_dest n m] ++ tr);
         split;
         [ rewrite Ht', Ht2, Ht1; by rewrite <- !app_assoc
         | by apply Forall_app_2 ] ]).
Qed.

Lemma same_named (w w' : World) path ino :
  w_names w' !! path = w_names w !! path ->
  w_inodes w' !! ino = w_inodes w !! ino ->
  w_names w !! path = Some ino ->
  contents w' path = contents w path /\
  permissions w' path = permissions w path.
Proof.
  intros Hn Hi Hp. unfold contents, permissions. rewrite Hn, Hp. simpl.
  by rewrite Hi.
Qed.

(** A finished run with two path arguments: its transfers stay inside the
    buffer, and a path that names a file other than the destination's names
    the same bytes and permission bits afterwards. *)
Lemma main_frame fuel prog src dst (w w' : World) status :
  run fuel [prog; src; dst] w = Some (status, w') ->
  (exists tr,
     w_trace w' = w_trace w ++ tr /\
     Forall (fun e => within_buffer e = true) tr) /\
  (forall path ino,
     resolve w path = Some ino -> resolve w dst <> Some ino ->
     contents w' path = contents w path /\
     permissions w' path = permissions w path).
Proof.
  unfold run. rewrite main_unfold.
  destruct (open_total src O_RDONLY 0 w) as (a & w1 & Ho1). rewrite Ho1.
  destruct (Z.eqb_spec a (-1)) as [->|Ha].
  { intros [= <- <-].
    apply open_fail in Ho1 as (Hn1 & Hi1 & Hf1 & Hu1 & Hso1 & Hse1 & Ht1).
    split.
    - exists [EvOpen src O_RDONLY (-1)]. split; [exact Ht1|].
      by repeat constructor.
    - intros path ino [Hp _]%resolve_Some _.
      apply (same_named _ _ path ino); simpl; [by rewrite Hn1|by rewrite Hi1|done]. }
  apply open_rdonly_ok in Ho1
    as (s & isrc & -> & Hs & Hrs & Hf1 & Hn1 & Hi1 & Hu1 & Hso1 & Hse1 & Ht1);
    [|done].
  destruct (open_total dst creat_flags mode_0644 w1) as (b & w2 & Ho2).
  rewrite Ho2.
  destruct (Z.eqb_spec b (-1)) as [->|Hb].
  { apply open_fail in Ho2 as (Hn2 & Hi2 & Hf2 & Hu2 & Hso2 & Hse2 & Ht2).
    set (w2' := say_error _ w2).
    destruct (close_frame (Z.of_nat s) w2')
      as (r & w3 & -> & Hn3 & Hi3 & Ht3 & _).
    intros [= <- <-]. simpl in *. split.
    - exists [EvOpen src O_RDONLY (Z.of_nat s); EvOpen dst creat_flags (-1);
              EvClose (Z.of_nat s) r].
      split; [|by repeat constructor].
      rewrite Ht3, Ht2, Ht1. by rewrite <- !app_assoc.
    - intros path ino [Hp _]%resolve_Some _.
      apply (same_named _ _ path ino); [congruence|congruence|done]. }
  apply open_creat_ok in Ho2
    as (d & idst & md & -> & Hd & Hf2 & Hn2 & Hi2 & Hcase & Hu2 & Hso2 & Hse2
        & Ht2); [|done].
  assert (Hres : resolve w1 dst = resolve w dst).
  { unfold resolve. by rewrite Hn1, Hi1. }
  rewrite Hres, Hi1 in Hcase.
  (* what the opens leave of a file that is not the destination's *)
  assert (Hother : forall path ino,
    resolve w path = Some ino -> resolve w dst <> Some ino ->
    idst <> ino /\ w_names w2 !! path = w_names w !! path /\
    w_inodes w2 !! ino = w_inodes w !! ino).
  { intros path ino Hp Hne.
    assert (Hino : idst <> ino).
    { intros ->. apply resolve_Some in Hp as [_ [x Hx]].
      destruct Hcase as [[Hc _]|(_ & Hc & _)]; congruence. }
    assert (Hpath : path <> dst) by (intros ->; congruence).
    split_and!; [done| |].
    - rewrite Hn2, Hn1. by rewrite lookup_insert_ne.
    - rewrite Hi2, Hi1. by rewrite lookup_insert_ne. }
  pose proof (fun i => copy_loop_frame i fuel (Z.of_nat s) (Z.of_nat d)
                         buffer0 w2) as Hloop.
  assert (HJ : forall ino, idst <> ino ->
    forall o, lookup_fd w2 (Z.of_nat d) = Some o -> o_ino o <> ino).
  { intros ino Hino o. rewrite lookup_fd_nat, Hf2, lookup_insert_eq.
    by intros [= <-]. }
  destruct (copy_loop fuel (Z.of_nat s) (Z.of_nat d) buffer0 w2)
    as [n w3|c w3|]; [| |done].
  - set (w3' := if n =? -1 then say_error "Error al leer" w3 else w3).
    assert (Hw3' : w_names w3' = w_names w3 /\ w_inodes w3' = w_inodes w3 /\
                   w_trace w3' = w_trace w3).
    { unfold w3'. by destruct (n =? -1). }
    clearbody w3'. destruct Hw3' as (Hn3' & Hi3' & Ht3').
    destruct (close_frame (Z.of_nat s) w3')
      as (r1 & w4 & -> & Hn4 & Hi4 & Ht4 & _).
    destruct (close_frame (Z.of_nat d) w4)
      as (r2 & w5 & -> & Hn5 & Hi5 & Ht5 & _).
    intros [= <- <-]. simpl. split.
    + destruct (Hloop 0%nat) as (_ & _ & tr & Ht3 & Htr).
      exists ([EvOpen src O_RDONLY (Z.of_nat s);
               EvOpen dst creat_flags (Z.of_nat d)] ++ tr ++
              [EvClose (Z.of_nat s) r1; EvClose (Z.of_nat d) r2]).
      split.
      * rewrite Ht5, Ht4, Ht3', Ht3, Ht2, Ht1. by rewrite <- !app_assoc.
      * apply Forall_app_2; [by repeat constructor|].
        apply Forall_app_2; [done|by repeat constructor].
    + intros path ino Hp Hne.
      destruct (Hother path ino Hp Hne) as (Hino & Hnp & Hip).
      destruct (Hloop ino) as (Hn3 & Hi3 & _).
      apply resolve_Some in Hp as [Hp _].
      apply (same_named _ _ path ino); simpl; [| |done].
      * rewrite Hn5, Hn4, Hn3', Hn3. exact Hnp.
      * rewrite Hi5, Hi4, Hi3', (Hi3 (HJ ino Hino)). exact Hip.
  - intros [= <- <-]. split.
    + destruct (Hloop 0%nat) as (_ & _ & tr & Ht3 & Htr).
      exists ([EvOpen src O_RDONLY (Z.of_nat s);
               EvOpen dst creat_flags (Z.of_nat d)] ++ tr).
      split.
      * rewrite Ht3, Ht2, Ht1. by rewrite <- !app_assoc.
      * apply Forall_app_2; [by repeat constructor|done].
    + intros path ino Hp Hne.
      destruct (Hother path ino Hp Hne) as (Hino & Hnp & Hip).
      destruct (Hloop ino) as (Hn3 & Hi3 & _).
      apply resolve_Some in Hp as [Hp _].
      apply (same_named _ _ path ino); [| |done].
      * rewrite Hn3. exact Hnp.
      * rewrite (Hi3 (HJ ino Hino)). exact Hip.
Qed.

(** ** Runs in which the environment fails nothing *)

Lemma next_fault_nil (w : World) : w_faults w = [] -> next_fault w = (NoFault, w).
Proof. unfold next_fault. by intros ->. Qed.

Lemma open_nofault path flags mode (w : World) :
  w_faults w = [] ->
  is_Some (resolve w path) \/ Z.land flags O_CREAT <> 0 ->
  exists (n : nat) w1,
    open path flags mode w = Running (Z.of_nat n) w1 /\ w_faults w1 = [].
Proof.
  intros Hnf Hok. unfold open, install. rewrite (next_fault_nil _ Hnf).
  cbv zeta. destruct (resolve w path) as [ino|].
  - destruct (negb (Z.land flags O_TRUNC =? 0) && _); eauto.
  - destruct Hok as [[x Hx]|Hc]; [done|].
    rewrite (proj2 (Z.eqb_neq _ _) Hc). simpl. eauto.
Qed.

Lemma read_nofault (s : nat) o file buf count (w : World) :
  w_faults w = [] -> w_fds w !! s = Some o -> o_rd o = true ->
  w_inodes w !! o_ino o = Some file ->
  let chunk := take (Z.to_nat count) (drop (o_pos o) (i_data file)) in
  read (Z.of_nat s) buf count w =
    Running (Z.of_nat (length chunk), chunk ++ drop (length chunk) buf)
      (log_event (EvRead (Z.of_nat s) count (Z.of_nat (length chunk)))
         (set_fds (<[s := advance o (length chunk)]> (w_fds w)) w)).
Proof.
  destruct o as [ino pos rd wr]. simpl. intros Hnf Hs -> Hfile.
  unfold read. rewrite (next_fault_nil _ Hnf).
  rewrite lookup_fd_nat, Nat2Z.id, Hs. simpl. rewrite Hfile. reflexivity.
Qed.

Lemma write_nofault (d : nat) o file buf count (w : World) :
  w_faults w = [] -> w_fds w !! d = Some o -> o_wr o = true ->
  w_inodes w !! o_ino o = Some file ->
  0 <= count -> (Z.to_nat count <= length buf)%nat ->
  write (Z.of_nat d) buf count w =
    Running count
      (log_event (EvWrite (Z.of_nat d) count count)
         (set_fds (<[d := advance o (Z.to_nat count)]> (w_fds w))
            (set_inodes
               (<[o_ino o :=
                    Inode (write_at (o_pos o) (take (Z.to_nat count) buf)
                             (i_data file)) (i_mode file)]> (w_inodes w)) w))).
Proof.
  destruct o as [ino pos rd wr]. simpl. intros Hnf Hd -> Hfile Hcount Hbuf.
  unfold write. rewrite (next_fault_nil _ Hnf).
  rewrite lookup_fd_nat, Nat2Z.id, Hd. simpl. rewrite Hfile.
  rewrite length_take, Nat.min_l by done. rewrite Z2Nat.id by done.
  reflexivity.
Qed.

Lemma take_drop_taken {A} (n : nat) (l : list A) :
  take n l ++ drop (length (take n l)) l = l.
Proof.
  rewrite length_take. destruct (Nat.le_gt_cases n (length l)).
  - rewrite Nat.min_l by done. apply take_drop.
  - rewrite Nat.min_r by lia. rewrite take_ge, drop_ge by lia.
    apply app_nil_r.
Qed.

(** Without faults the loop copies what is left of the source and ends on
    a read of 0. *)
Lemma copy_loop_nofault (s d isrc idst : nat) (base : gmap nat open_file)
    (datas : list byte) (ms md : Z) :
  s <> d -> isrc <> idst ->
  forall (fuel ps : nat) (datad buf : list byte) (w : World),
    w_faults w = [] ->
    w_fds w = <[s := OpenFile isrc ps true false]>
                (<[d := OpenFile idst (length datad) false true]> base) ->
    w_inodes w !! isrc = Some (Inode datas ms) ->
    w_inodes w !! idst = Some (Inode datad md) ->
    length buf = Z.to_nat BUFFER_SIZE ->
    (length datas - ps < fuel)%nat ->
    exists w' os od,
      copy_loop fuel (Z.of_nat s) (Z.of_nat d) buf w = Running 0 w' /\
      w_faults w' = [] /\
      w_fds w' = <[s := os]> (<[d := od]> base) /\
      w_inodes w' = <[idst := Inode (datad ++ drop ps datas) md]> (w_inodes w) /\
      w_names w' = w_names w /\ w_stdout w' = w_stdout w /\
      w_stderr w' = w_stderr w.
Proof.
  intros Hsd Hino. induction fuel as [|fuel IH];
    intros ps datad buf w Hnf Hfds Hsrc Hdst Hbuf Hfuel; [lia|].
  rewrite copy_loop_S.
  rewrite (read_nofault s (OpenFile isrc ps true false) (Inode datas ms));
    try done; [|rewrite Hfds; apply lookup_insert_eq].
  simpl o_pos. simpl i_data.
  set (chunk := take (Z.to_nat BUFFER_SIZE) (drop ps datas)).
  set (w1 := log_event _ _).
  destruct (Z.gtb_spec (Z.of_nat (length chunk)) 0) as [Hpos|Hzero].
  2:{ (* nothing left *)
      assert (Hend : drop ps datas = []).
      { apply drop_ge. unfold chunk in Hzero.
        rewrite length_take, length_drop in Hzero.
        change (Z.to_nat BUFFER_SIZE) with 1024%nat in Hzero. lia. }
      exists w1, (advance (OpenFile isrc ps true false) (length chunk)),
        (OpenFile idst (length datad) false true).
      assert (Hlen0 : Z.of_nat (length chunk) = 0) by lia.
      unfold w1. simpl. split_and!; try done.
      - by rewrite Hlen0.
      - rewrite Hfds. by rewrite insert_insert_eq.
      - rewrite Hend, app_nil_r. by rewrite insert_id. }
  assert (Hchunk : (length chunk <= Z.to_nat BUFFER_SIZE)%nat /\
                   (length chunk <= length datas - ps)%nat).
  { unfold chunk. rewrite length_take, length_drop. lia. }
  rewrite (write_nofault d (OpenFile idst (length datad) false true)
             (Inode datad md)); try done; try lia.
  2:{ unfold w1. simpl. rewrite Hfds. rewrite lookup_insert_ne by done.
      rewrite lookup_insert_ne by done. apply lookup_insert_eq. }
  2:{ rewrite length_app, length_drop, Nat2Z.id. lia. }
  rewrite Z.eqb_refl. simpl negb. cbv iota.
  rewrite Nat2Z.id. rewrite take_app_length. simpl o_pos. simpl i_data.
  rewrite write_at_end. simpl i_mode.
  set (w2 := log_event _ _).
  destruct (IH (ps + length chunk)%nat (datad ++ chunk)
              (chunk ++ drop (length chunk) buf) w2)
    as (w' & os & od & Hrun & Hnf' & Hf' & Hi' & Hn' & Hso' & Hse').
  { done. }
  { unfold w2, w1, advance. simpl. rewrite Hfds, length_app.
    apply map_eq. intros j. rewrite !lookup_insert.
    repeat case_decide; congruence. }
  { unfold w2, w1. simpl. by rewrite lookup_insert_ne. }
  { unfold w2, w1. simpl. apply lookup_insert_eq. }
  { rewrite length_app, length_drop. lia. }
  { lia. }
  exists w', os, od. split_and!; try done.
  rewrite Hi'. unfold w2, w1. simpl. rewrite insert_insert_eq.
  f_equal. f_equal. rewrite <- app_assoc. f_equal.
  unfold chunk. rewrite <- drop_drop. apply take_drop_taken.
Qed.

(** ** Further properties of the copier *)


(** X2. No transfer of a run leaves the buffer: every [read] asks for
    exactly 1024 bytes and returns at most 1024, and every [write] sends
    between 1 and 1024 bytes and reports no more than it was given. *)
Theorem transfers_within_buffer fuel prog src dst (w : World) :
  (file_size w src < fuel)%nat ->
  exists status w' tr,
    run fuel [prog; src; dst] w = Some (status, w') /\
    w_trace w' = w_trace w ++ tr /\
    Forall (fun e => within_buffer e = true) tr.
Proof.
  intros Hfuel.
  destruct (main_paths fuel prog src dst w Hfuel)
    as (status & w' & tr & Hrun & Htr & _).
  destruct (main_frame _ _ _ _ _ _ _ Hrun) as [(tr' & Htr' & Hin) _].
  exists status, w', tr'. done.
Qed.

(** X3. The exit status is 0 or 1 and the output tells which. With status
    0 the success line is the only thing printed on standard output, and
    standard error is unchanged or has gained "Error al leer". With status
    1 nothing is printed on standard output and standard error has gained
    exactly one line, for the source, the destination or the write. *)
Theorem status_and_diagnostics fuel prog src dst (w : World) :
  (file_size w src < fuel)%nat ->
  exists status w',
    run fuel [prog; src; dst] w = Some (status, w') /\
    ((status = 0 /\
      w_stdout w' =
        w_stdout w ++ [Printf "Copia completada exitosamente.\n" []] /\
      (w_stderr w' = w_stderr w \/
       exists e, w_stderr w' = w_stderr w ++ [("Error al leer"%string, e)])) \/
     (status = 1 /\
      w_stdout w' = w_stdout w /\
      exists msg e,
        w_stderr w' = w_stderr w ++ [(msg, e)] /\
        (msg = "Error al abrir archivo origen"%string \/
         msg = "Error al crear archivo destino"%string \/
         msg = "Error al escribir"%string))).
Proof.
  intros Hfuel.
  destruct (main_paths fuel prog src dst w Hfuel)
    as (status & w' & tr & Hrun & _ & _ & _ & Hpath).
  exists status, w'. split; [done|].
  destruct Hpath as [e Hn Hi Hso Hse | a r e Ha Hn Hi Hso Hse
                     | a b io n m r1 r2 e Ha Hb Hab Hio Hpos Hm Hso Hse
                     | a b io n r1 r2 isrc idst file copied rest md
                         Ha Hb Hab Hio Hn Hso].
  - right. split_and!; try done. eexists _, e. split; [exact Hse|]. tauto.
  - right. split_and!; try done. eexists _, e. split; [exact Hse|]. tauto.
  - right. split_and!; try done. eexists _, e. split; [exact Hse|]. tauto.
  - left. split_and!; try done.
    destruct Hn as [[_ Hse]|[_ Hse]]; [by left|by right].
Qed.

(** X4. A source path without a directory entry always ends the run with
    status 1 after "Error al abrir archivo origen", whatever the fault
    script: the one [open] is the only system call, nothing is created
    under the destination path and no file changes. The [errno] shown is
    [ENOENT] unless the environment failed the call with another. *)
Theorem missing_source_exits_one fuel prog src dst (w : World) :
  w_names w !! src = None ->
  exists w' e,
    main fuel [prog; src; dst] w = Exited 1 w' /\
    w_stderr w' =
      w_stderr w ++ [("Error al abrir archivo origen"%string, e)] /\
    (e = ENOENT \/ exists fs, w_faults w = Errno e :: fs) /\
    w_stdout w' = w_stdout w /\
    w_trace w' = w_trace w ++ [EvOpen src O_RDONLY (-1)] /\
    w_names w' = w_names w /\ w_inodes w' = w_inodes w /\
    w_fds w' = w_fds w.
Proof.
  intros Hsrc. destruct (open_missing src 0 w Hsrc) as [w1 Hopen].
  rewrite main_unfold, Hopen. simpl.
  pose proof (open_fail_errno _ _ _ _ _ Hopen) as Herr.
  apply open_fail in Hopen as (Hn & Hi & Hf & Hu & Hso & Hse & Ht).
  exists (say_error "Error al abrir archivo origen" w1), (w_errno w1).
  split; [reflexivity|]. simpl. split_and!; try congruence.
  destruct Herr as [(e & fs & Hfs & He)|[_ He]]; [right|by left].
  exists fs. by rewrite He.
Qed.

(** X7. When the environment fails nothing (no call fails, no transfer is
    cut short) and the source path names a file, the run ends with status
    0, prints the success line and nothing on standard error, and leaves
    the destination with the bytes of the source: the bytes the source had
    before when the paths name different files, none when they name the
    same file. *)
Theorem fault_free_copy fuel prog src dst (w : World) (isrc : nat) :
  w_faults w = [] ->
  resolve w src = Some isrc ->
  (file_size w src < fuel)%nat ->
  exists w',
    run fuel [prog; src; dst] w = Some (0, w') /\
    w_stderr w' = w_stderr w /\
    w_stdout w' =
      w_stdout w ++ [Printf "Copia completada exitosamente.\n" []] /\
    contents w' dst = contents w' src /\
    (resolve w dst <> Some isrc -> contents w' dst = contents w src) /\
    (resolve w dst = Some isrc -> contents w' dst = Some []).
Proof.
  intros Hnf Hrs Hfuel. unfold run. rewrite main_unfold.
  destruct (open_nofault src O_RDONLY 0 w Hnf) as (s & w1 & Ho1 & Hnf1);
    [left; eauto|].
  rewrite Ho1. rewrite (proj2 (Z.eqb_neq (Z.of_nat s) (-1))) by lia.
  apply open_rdonly_ok in Ho1
    as (s' & isrc' & Hs' & Hs & Hrs' & Hf1 & Hn1 & Hi1 & Hu1 & Hso1 & Hse1
        & Ht1); [|lia].
  apply Nat2Z.inj in Hs'. subst s'.
  assert (isrc' = isrc) as ->.
  { rewrite Hrs in Hrs'. by injection Hrs'. }
  destruct (open_nofault dst creat_flags mode_0644 w1 Hnf1)
    as (d & w2 & Ho2 & Hnf2); [by right|].
  rewrite Ho2. rewrite (proj2 (Z.eqb_neq (Z.of_nat d) (-1))) by lia.
  apply open_creat_ok in Ho2
    as (d' & idst & md & Hd' & Hd & Hf2 & Hn2 & Hi2 & Hcase & Hu2 & Hso2
        & Hse2 & Ht2); [|lia].
  apply Nat2Z.inj in Hd'. subst d'.
  assert (Hres : resolve w1 dst = resolve w dst).
  { unfold resolve. by rewrite Hn1, Hi1. }
  rewrite Hres, Hi1 in Hcase.
  assert (Hsd : s <> d).
  { intros ->. rewrite Hf1, lookup_insert_eq in Hd. done. }
  assert (Hbd : w_fds w !! d = None).
  { rewrite Hf1, lookup_insert_ne in Hd; done. }
  pose proof Hrs as [Hns [file Hfile]]%resolve_Some.
  destruct (named_file w src isrc file Hns Hfile) as [Hcs _].
  (* the loop *)
  assert (Hloop : exists w3 os od,
    copy_loop fuel (Z.of_nat s) (Z.of_nat d) buffer0 w2 = Running 0 w3 /\
    w_fds w3 = <[s := os]> (<[d := od]> (w_fds w)) /\
    w_inodes w3 =
      <[idst := Inode (if decide (idst = isrc) then [] else i_data file) md]>
        (w_inodes w) /\
    w_names w3 = w_names w2 /\ w_stdout w3 = w_stdout w2 /\
    w_stderr w3 = w_stderr w2).
  { destruct (decide (idst = isrc)) as [->|Hne].
    - destruct fuel as [|fuel]; [lia|]. rewrite copy_loop_S.
      rewrite (read_nofault s (OpenFile isrc 0 true false) (Inode [] md));
        try done.
      2:{ rewrite Hf2, Hf1. rewrite lookup_insert_ne by done.
          apply lookup_insert_eq. }
      2:{ simpl. rewrite Hi2. apply lookup_insert_eq. }
      simpl.
      eexists _, (advance (OpenFile isrc 0 true false) 0),
        (OpenFile isrc 0 false true).
      split; [reflexivity|]. simpl.
      split_and!; try done.
      + rewrite Hf2, Hf1. apply map_eq. intros j.
        rewrite !lookup_insert. repeat case_decide; congruence.
      + by rewrite Hi2, Hi1.
    - destruct file as [datas ms].
      destruct (copy_loop_nofault s d isrc idst (w_fds w) datas ms md
                  ltac:(done) ltac:(done) fuel 0%nat [] buffer0 w2)
        as (w3 & os & od & Hrun & _ & Hf3 & Hi3 & Hn3 & Hso3 & Hse3);
        try done.
      { rewrite Hf2, Hf1. simpl. by apply insert_insert_ne. }
      { rewrite Hi2, Hi1. by rewrite lookup_insert_ne. }
      { rewrite Hi2. apply lookup_insert_eq. }
      { rewrite (file_size_resolved _ _ _ _ Hrs Hfile) in Hfuel. simpl in *.
        lia. }
      exists w3, os, od. split_and!; try done.
      rewrite Hi3, Hi2, Hi1. simpl. by rewrite insert_insert_eq. }
  destruct Hloop as (w3 & os & od & -> & Hf3 & Hi3 & Hn3 & Hso3 & Hse3).
  simpl.
  destruct (close_known s os w3)
    as (r1 & w4 & -> & Hf4 & Hn4 & Hi4 & Hu4 & Hso4 & Hse4 & Ht4).
  { rewrite Hf3. apply lookup_insert_eq. }
  destruct (close_known d od w4)
    as (r2 & w5 & -> & Hf5 & Hn5 & Hi5 & Hu5 & Hso5 & Hse5 & Ht5).
  { rewrite Hf4, Hf3. rewrite lookup_delete_ne by done.
    rewrite lookup_insert_ne by done. apply lookup_insert_eq. }
  eexists. split; [reflexivity|]. simpl.
  assert (Hnames : w_names w5 = <[dst := idst]> (w_names w)) by congruence.
  assert (Hinodes : w_inodes w5 =
    <[idst := Inode (if decide (idst = isrc) then [] else i_data file) md]>
      (w_inodes w)) by congruence.
  destruct (named_file (say "Copia completada exitosamente.\n" w5) dst idst
              (Inode (if decide (idst = isrc) then [] else i_data file) md))
    as [Hcd _].
  { simpl. rewrite Hnames. apply lookup_insert_eq. }
  { simpl. rewrite Hinodes. apply lookup_insert_eq. }
  simpl in Hcd.
  (* the destination's file is the source's exactly when the paths agree *)
  assert (Hsame : idst = isrc <-> resolve w dst = Some isrc).
  { split.
    - intros ->. destruct Hcase as [[Hc _]|(_ & Hc & _)]; [done|congruence].
    - intros Hc. destruct Hcase as [[Hc' _]|(Hc' & _)]; congruence. }
  assert (Hsrc' :
    contents (say "Copia completada exitosamente.\n" w5) src =
    Some (if decide (idst = isrc) then [] else i_data file)).
  { destruct (decide (src = dst)) as [->|Hne]; [done|].
    destruct (decide (idst = isrc)) as [->|Hino].
    - apply (named_file _ src isrc (Inode [] md)); simpl.
      + rewrite Hnames. by rewrite lookup_insert_ne.
      + rewrite Hinodes. apply lookup_insert_eq.
    - apply (named_file _ src isrc file); simpl.
      + rewrite Hnames. by rewrite lookup_insert_ne.
      + rewrite Hinodes. by rewrite lookup_insert_ne. }
  split_and!.
  - congruence.
  - congruence.
  - congruence.
  - intros Hne. rewrite Hcd, Hcs.
    destruct (decide (idst = isrc)) as [E|_]; [|done].
    by apply Hsame in E.
  - intros He. rewrite Hcd. apply Hsame in He.
    by destruct (decide (idst = isrc)).
Qed.

(** ** These properties at concrete inputs *)


Lemma transfers_within_buffer_witness :
  let w := world [NoFault; NoFault; Short 2000] in
  (file_size w "origen.bin" < 2501)%nat /\
  exists status w' tr,
    run 2501 ["files"; "origen.bin"; "copia.bin"]%string w
      = Some (status, w') /\
    w_trace w' = w_trace w ++ tr /\
    Forall (fun e => within_buffer e = true) tr.
Proof.
  intros w.
  assert (H : (file_size w "origen.bin" < 2501)%nat).
  { apply Nat.ltb_lt. vm_compute. reflexivity. }
  split; [exact H|].
  exact (transfers_within_buffer 2501 "files" "origen.bin" "copia.bin" w H).
Defined.

Lemma status_and_diagnostics_witness :
  let w := world [NoFault; Errno EACCES] in
  (file_size w "viejo.txt" < 6)%nat /\
  exists w',
    run 6 ["files"; "viejo.txt"; "copia.bin"]%string w = Some (1, w') /\
    w_stdout w' = w_stdout w.
Proof.
  intros w.
  assert (H : (file_size w "viejo.txt" < 6)%nat) by (vm_compute; lia).
  split; [exact H|].
  destruct (status_and_diagnostics 6 "files" "viejo.txt" "copia.bin" w H)
    as (status & w' & Hrun & Hcase).
  assert (Hst : fst <$> run 6 ["files"; "viejo.txt"; "copia.bin"]%string w
                = Some 1) by (vm_compute; reflexivity).
  rewrite Hrun in Hst. injection Hst as Hst. simpl in Hst. subst status.
  destruct Hcase as [(Hz & _)|(_ & Hso & _)]; [discriminate Hz|].
  exists w'. split; assumption.
Defined.

Lemma missing_source_exits_one_witness :
  w_names (world []) !! "no_existe"%string = None /\
  exists w',
    main 1 ["files"; "no_existe"; "copia.bin"]%string (world []) = Exited 1 w' /\
    w_stderr w' = [("Error al abrir archivo origen"%string, ENOENT)] /\
    w_names w' = w_names (world []).
Proof.
  assert (H : w_names (world []) !! "no_existe"%string = None)
    by (vm_compute; reflexivity).
  split; [exact H|].
  destruct (missing_source_exits_one 1 "files" "no_existe" "copia.bin"
              (world []) H)
    as (w' & e & Hmain & Hse & He & _ & _ & Hn & _).
  destruct He as [->|[fs Hfs]]; [|discriminate Hfs].
  exists w'. split_and!; assumption.
Defined.

Lemma copy_roundtrip_witness :
  let w := world [NoFault; NoFault; Short 2; NoFault; Short 1] in
  (file_size w "viejo.txt" < 6)%nat /\
  exists w',
    run 6 ["files"; "viejo.txt"; "copia.bin"]%string w = Some (0, w') /\
    contents w' "copia.bin" = contents w "viejo.txt".
Proof.
  intros w.
  assert (H : (file_size w "viejo.txt" < 6)%nat) by (vm_compute; lia).
  split; [exact H|].
  destruct (copy_roundtrip 6 "files" "viejo.txt" "copia.bin" w H)
    as (status & w' & tr & Hrun & Htr & Himp).
  change (w_trace w) with (@nil event) in Htr. simpl in Htr.
  assert (Hobs :
    (fun r => (r.1, existsb failed_read (w_trace r.2))) <$>
      run 6 ["files"; "viejo.txt"; "copia.bin"]%string w = Some (0, false))
    by (vm_compute; reflexivity).
  rewrite Hrun in Hobs. simpl in Hobs. injection Hobs as Hst Hreads.
  subst status. rewrite Htr in Hreads.
  destruct (Himp eq_refl Hreads) as [Hsame Hkept].
  assert (Hd : resolve w "copia.bin" = None) by (vm_compute; reflexivity).
  assert (Hs : resolve w "viejo.txt" = Some 2%nat) by (vm_compute; reflexivity).
  exists w'. split; [exact Hrun|].
  rewrite Hsame. apply Hkept. rewrite Hd, Hs. discriminate.
Defined.

Lemma read_error_status_witness :
  let w := world [NoFault; NoFault; NoFault; NoFault; Errno EIO] in
  (file_size w "origen.bin" < 2501)%nat /\
  exists w' e,
    run 2501 ["files"; "origen.bin"; "copia.bin"]%string w = Some (0, w') /\
    w_stderr w' = w_stderr w ++ [("Error al leer"%string, e)].
Proof.
  intros w.
  assert (H : (file_size w "origen.bin" < 2501)%nat).
  { apply Nat.ltb_lt. vm_compute. reflexivity. }
  split; [exact H|].
  destruct (read_error_status 2501 "files" "origen.bin" "copia.bin" w H)
    as (status & w' & tr & Hrun & Htr & Himp).
  change (w_trace w) with (@nil event) in Htr. simpl in Htr.
  assert (Hobs :
    (fun r => existsb failed_read (w_trace r.2)) <$>
      run 2501 ["files"; "origen.bin"; "copia.bin"]%string w = Some true)
    by (vm_compute; reflexivity).
  rewrite Hrun in Hobs. simpl in Hobs. injection Hobs as Hreads.
  rewrite Htr in Hreads.
  destruct (Himp Hreads) as (-> & [e He] & _).
  exists w', e. split; assumption.
Defined.

Lemma fault_free_copy_witness :
  let w := world [] in
  w_faults w = [] /\ resolve w "viejo.txt" = Some 2%nat /\
  (file_size w "viejo.txt" < 6)%nat /\
  exists w',
    run 6 ["files"; "viejo.txt"; "copia.bin"]%string w = Some (0, w') /\
    contents w' "copia.bin" = contents w "viejo.txt".
Proof.
  intros w.
  assert (H : (file_size w "viejo.txt" < 6)%nat) by (vm_compute; lia).
  assert (Hs : resolve w "viejo.txt" = Some 2%nat) by (vm_compute; reflexivity).
  split_and!; [reflexivity|exact Hs|exact H|].
  destruct (fault_free_copy 6 "files" "viejo.txt" "copia.bin" w 2 eq_refl Hs H)
    as (w' & Hrun & _ & _ & _ & Hdiff & _).
  assert (Hd : resolve w "copia.bin" = None) by (vm_compute; reflexivity).
  exists w'. split; [exact Hrun|].
  apply Hdiff. rewrite Hd. discriminate.
Defined.
